(** * akamai-get: the rule-tree flattener and the command-line commands

    A shallow embedding of [akamai-get.py].  The script walks values decoded
    from JSON (the answers of the REST API), so the data model is the JSON
    value as Python holds it after [json.loads]: [None], [bool], [int],
    [float], [str], [list] and [dict] (insertion ordered, string keys, a
    key at most once in a field list, as the decoder builds it).  A string
    is a list of characters, a character being an [ascii] here.  Python
    raises exceptions; the embedding returns them in a [result].

    What lies outside the script is taken as a parameter of the sections
    below: the HTTP session (a request followed by [response.json()]), the
    url helpers [urlencode] and [urljoin], the character-reference table of
    [html.unescape], the file system and the JSON reader of [json.load].
    Logging ([LOG.info]) has no effect on any value and is left out, and the
    interpreter's recursion limit is not modelled. *)

From Stdlib Require Import List String Ascii ZArith Bool Lia Permutation.
From Stdlib Require Import Floats.SpecFloat.
Import ListNotations.
Local Open Scope string_scope.
Local Open Scope Z_scope.
Local Open Scope list_scope.

#[local] Set Warnings "-register-all".
#[local] Arguments String.eqb : simpl never.
#[local] Arguments Ascii.eqb : simpl never.

(** ** Python values decoded from JSON *)

Inductive json : Type :=
| JNull
| JBool (b : bool)
| JInt (z : Z)
| JFloat (f : spec_float)
| JStr (s : string)
| JArr (items : list json)
| JObj (fields : list (string * json)).

(** Exceptions the script can meet.  [KeyError] carries the key that was
    looked up; [OtherError] stands for whatever an outside collaborator
    raises (network faults, JSON syntax errors, permission errors). *)
Inductive exn : Type :=
| KeyError (key : json)
| TypeError
| IndexError
| FileNotFoundError
| OtherError (what : string).

Inductive result (A : Type) : Type :=
| Ok (a : A)
| Raise (e : exn).

Arguments Ok {A} a.
Arguments Raise {A} e.

Definition bind {A B : Type} (m : result A) (k : A -> result B) : result B :=
  match m with
  | Ok a => k a
  | Raise e => Raise e
  end.

Notation "x <- m ;; k" := (bind m (fun x => k))
  (at level 61, m at next level, right associativity).

(** [for x in xs: st = body x st], stopping at the first exception. *)
Fixpoint for_each {A S : Type} (xs : list A) (body : A -> S -> result S)
  (st : S) : result S :=
  match xs with
  | [] => Ok st
  | x :: xs' => st' <- body x st ;; for_each xs' body st'
  end.

Module Py.

(** Lookup in the field list of a [dict] with string keys. *)
Fixpoint assoc (k : string) (fields : list (string * json)) : option json :=
  match fields with
  | [] => None
  | (k', v) :: rest => if String.eqb k k' then Some v else assoc k rest
  end.

(** [d[k] = v] on a [dict]: an existing key keeps its place. *)
Fixpoint assoc_set (k : string) (v : json) (fields : list (string * json))
  : list (string * json) :=
  match fields with
  | [] => [(k, v)]
  | (k', v') :: rest =>
      if String.eqb k k' then (k', v) :: rest
      else (k', v') :: assoc_set k v rest
  end.

(** [obj[k]] for a string literal [k]. *)
Definition getitem (obj : json) (k : string) : result json :=
  match obj with
  | JObj fields =>
      match assoc k fields with
      | Some v => Ok v
      | None => Raise (KeyError (JStr k))
      end
  | _ => Raise TypeError
  end.

(** [obj[k] = v] for a string literal [k]. *)
Definition setitem (obj : json) (k : string) (v : json) : result json :=
  match obj with
  | JObj fields => Ok (JObj (assoc_set k v fields))
  | _ => Raise TypeError
  end.

(** Truth value of [if v:]. *)
Definition truthy (v : json) : bool :=
  match v with
  | JNull => false
  | JBool b => b
  | JInt z => negb (z =? 0)
  | JFloat (S754_zero _) => false
  | JFloat _ => true
  | JStr s => negb (String.eqb s "")
  | JArr items => match items with [] => false | _ => true end
  | JObj fields => match fields with [] => false | _ => true end
  end.

(** [v == s] for a string literal [s]. *)
Definition eq_str (v : json) (s : string) : bool :=
  match v with
  | JStr s' => String.eqb s' s
  | _ => false
  end.

Fixpoint chars (s : string) : list json :=
  match s with
  | EmptyString => []
  | String c rest => JStr (String c EmptyString) :: chars rest
  end.

(** The items a [for] loop sees: the elements of a list, the keys of a
    dict, the characters of a string; other values are not iterable. *)
Definition iter (v : json) : result (list json) :=
  match v with
  | JArr items => Ok items
  | JObj fields => Ok (map (fun kv => JStr (fst kv)) fields)
  | JStr s => Ok (chars s)
  | _ => Raise TypeError
  end.

Fixpoint is_prefix (p s : string) : bool :=
  match p, s with
  | EmptyString, _ => true
  | String a p', String b s' => Ascii.eqb a b && is_prefix p' s'
  | String _ _, EmptyString => false
  end.

Fixpoint is_infix (p s : string) : bool :=
  is_prefix p s ||
  match s with
  | EmptyString => false
  | String _ s' => is_infix p s'
  end.

(** [k in v] for a string literal [k]. *)
Definition contains (k : string) (v : json) : result bool :=
  match v with
  | JObj fields =>
      Ok (match assoc k fields with Some _ => true | None => false end)
  | JArr items => Ok (existsb (fun x => eq_str x k) items)
  | JStr s => Ok (is_infix k s)
  | _ => Raise TypeError
  end.

(** *** Keys of the flattener's own dictionaries

    The buckets are keyed by whatever [behavior['name']] holds.  Lists
    and dicts are unhashable; numbers and booleans compare by value
    ([True == 1 == 1.0]); the decoder's single NaN object is found again
    by identity. *)
Definition hashable (k : json) : bool :=
  match k with
  | JArr _ | JObj _ => false
  | _ => true
  end.

Definition signed (neg : bool) (z : Z) : Z := if neg then - z else z.

Definition int_eq_float (z : Z) (f : spec_float) : bool :=
  match f with
  | S754_zero _ => z =? 0
  | S754_finite s m e =>
      if 0 <=? e then z =? signed s (Zpos m * 2 ^ e)
      else (Zpos m mod 2 ^ (- e) =? 0) && (z =? signed s (Zpos m / 2 ^ (- e)))
  | _ => false
  end.

Definition float_key_eq (f g : spec_float) : bool :=
  match f, g with
  | S754_nan, S754_nan => true
  | S754_infinity s, S754_infinity t => Bool.eqb s t
  | S754_zero _, S754_zero _ => true
  | S754_finite s m e, S754_finite t n d =>
      Bool.eqb s t &&
      (Zpos m * 2 ^ (e - Z.min e d) =? Zpos n * 2 ^ (d - Z.min e d))
  | _, _ => false
  end.

Definition key_eq (a b : json) : bool :=
  match a, b with
  | JNull, JNull => true
  | JStr s, JStr t => String.eqb s t
  | JBool x, JBool y => Bool.eqb x y
  | JBool x, JInt z | JInt z, JBool x => z =? Z.b2z x
  | JBool x, JFloat f | JFloat f, JBool x => int_eq_float (Z.b2z x) f
  | JInt x, JInt y => x =? y
  | JInt z, JFloat f | JFloat f, JInt z => int_eq_float z f
  | JFloat f, JFloat g => float_key_eq f g
  | _, _ => false
  end.

(** A dictionary of buckets, in insertion order. *)
Definition buckets : Type := list (json * list json).

Fixpoint find (k : json) (d : buckets) : option (list json) :=
  match d with
  | [] => None
  | (k', b) :: rest => if key_eq k k' then Some b else find k rest
  end.

Fixpoint store (k : json) (b : list json) (d : buckets) : buckets :=
  match d with
  | [] => [(k, b)]
  | (k', b') :: rest =>
      if key_eq k k' then (k', b) :: rest else (k', b') :: store k b rest
  end.

(** [k in d] *)
Definition dict_contains (k : json) (d : buckets) : result bool :=
  if hashable k
  then Ok (match find k d with Some _ => true | None => false end)
  else Raise TypeError.

(** [d[k]] *)
Definition dict_getitem (d : buckets) (k : json) : result (list json) :=
  if hashable k
  then match find k d with Some b => Ok b | None => Raise (KeyError k) end
  else Raise TypeError.

(** [d[k] = b] *)
Definition dict_setitem (d : buckets) (k : json) (b : list json)
  : result buckets :=
  if hashable k then Ok (store k b d) else Raise TypeError.

(** [d[k].append(x)]: the list held by the dictionary grows in place. *)
Definition dict_append (d : buckets) (k : json) (x : json) : result buckets :=
  b <- dict_getitem d k ;;
  dict_setitem d k (b ++ [x]).

End Py.

(** ** RuleInfo: flattening a rule tree *)

Module RuleInfo.

(** The two dictionaries of a [RuleInfo] object.  [self._rules] is read
    only by the truth test of the constructor and has no accessor.

    The buckets hold the objects of the tree themselves.  The tree comes
    out of the JSON decoder, where no object sits at two places, and the
    only assignment made to an object is the one to the [rulename] of a
    criterion, right before that criterion is appended: a bucket entry is
    the value of its object after that assignment. *)
Record t : Type := mk {
  _behaviors : Py.buckets;
  _criteria : Py.buckets
}.

(** [if key not in d: d[key] = []] *)
Definition ensure_bucket (d : Py.buckets) (key : json) : result Py.buckets :=
  present <- Py.dict_contains key d ;;
  if present then Ok d else Py.dict_setitem d key [].

(** The body of the first loop of [_runrules]; the name is read again
    for the append, as the source does. *)
Definition add_behavior (behavior : json) (self : t) : result t :=
  name <- Py.getitem behavior "name" ;;
  d <- ensure_bucket (_behaviors self) name ;;
  name' <- Py.getitem behavior "name" ;;
  d' <- Py.dict_append d name' behavior ;;
  Ok (mk d' (_criteria self)).

(** The body of the second loop of [_runrules]: the criterion that is
    appended is the criterion object after its [rulename] was set. *)
Definition add_criterion (rule : json) (criteria : json) (self : t)
  : result t :=
  name <- Py.getitem criteria "name" ;;
  d <- ensure_bucket (_criteria self) name ;;
  rulename <- Py.getitem rule "name" ;;
  criteria' <- Py.setitem criteria "rulename" rulename ;;
  name' <- Py.getitem criteria' "name" ;;
  d' <- Py.dict_append d name' criteria' ;;
  Ok (mk (_behaviors self) d').

(** One call of [_runrules], the recursive calls being [recur]. *)
Definition runrules_body (recur : json -> t -> result t)
  (rule : json) (self : t) : result t :=
  behaviors <- Py.getitem rule "behaviors" ;;
  bs <- Py.iter behaviors ;;
  self1 <- for_each bs add_behavior self ;;
  has_criteria <- Py.contains "criteria" rule ;;
  self2 <- (if has_criteria
            then
              criteria <- Py.getitem rule "criteria" ;;
              cs <- Py.iter criteria ;;
              for_each cs (add_criterion rule) self1
            else Ok self1) ;;
  children <- Py.getitem rule "children" ;;
  ch <- Py.iter children ;;
  for_each ch recur self2.

(** Nesting depth of a value: the recursion of [_runrules] on a rule goes
    no deeper than this. *)
Fixpoint depth (v : json) : nat :=
  match v with
  | JArr items =>
      S ((fix go (l : list json) : nat :=
            match l with
            | [] => O
            | x :: l' => Nat.max (depth x) (go l')
            end) items)
  | JObj fields =>
      S ((fix go (l : list (string * json)) : nat :=
            match l with
            | [] => O
            | (_, x) :: l' => Nat.max (depth x) (go l')
            end) fields)
  | _ => O
  end.

(** [_runrules] with its recursion cut [n] calls deep.  [_runrules]
    itself allows one call more than the rule is deep, which the
    recursion never exceeds: the cut is not reached, and [_runrules]
    satisfies the equation of [runrules_body] ([runrules_unfold]). *)
Fixpoint runrules_upto (n : nat) (rule : json) (self : t) : result t :=
  match n with
  | O => Raise (OtherError "RecursionError")
  | S n' => runrules_body (runrules_upto n') rule self
  end.

Definition _runrules (rule : json) (self : t) : result t :=
  runrules_upto (S (depth rule)) rule self.

(** [RuleInfo(rules)] *)
Definition init (rules : json) : result t :=
  let self := mk [] [] in
  if Py.truthy rules
  then root <- Py.getitem rules "rules" ;; _runrules root self
  else Ok self.

Definition behaviors (self : t) : Py.buckets := _behaviors self.
Definition criteria (self : t) : Py.buckets := _criteria self.

End RuleInfo.

(** ** The shape of a rule tree

    A rule tree as the property API delivers it: every node is an object
    whose [behaviors] and [children] are lists, whose [criteria], when
    present, is a list, whose behaviors and criteria are objects with a
    string [name], and which has a [name] of its own when it has criteria. *)

Module RuleTree.

Definition named (v : json) : bool :=
  match v with
  | JObj fields =>
      match Py.assoc "name" fields with
      | Some (JStr _) => true
      | _ => false
      end
  | _ => false
  end.

Definition name_of (v : json) : string :=
  match v with
  | JObj fields =>
      match Py.assoc "name" fields with
      | Some (JStr s) => s
      | _ => ""
      end
  | _ => ""
  end.

Definition node_behaviors (node : json) : list json :=
  match node with
  | JObj fields =>
      match Py.assoc "behaviors" fields with
      | Some (JArr bs) => bs
      | _ => []
      end
  | _ => []
  end.

Definition node_criteria (node : json) : list json :=
  match node with
  | JObj fields =>
      match Py.assoc "criteria" fields with
      | Some (JArr cs) => cs
      | _ => []
      end
  | _ => []
  end.

Definition node_children (node : json) : list json :=
  match node with
  | JObj fields =>
      match Py.assoc "children" fields with
      | Some (JArr ch) => ch
      | _ => []
      end
  | _ => []
  end.

(** What a node must look like by itself. *)
Definition node_ok (node : json) : bool :=
  match node with
  | JObj fields =>
      match Py.assoc "behaviors" fields with
      | Some (JArr bs) => forallb named bs
      | _ => false
      end
      &&
      match Py.assoc "criteria" fields with
      | None => true
      | Some (JArr []) => true
      | Some (JArr cs) =>
          forallb named cs &&
          match Py.assoc "name" fields with Some _ => true | None => false end
      | Some _ => false
      end
      &&
      match Py.assoc "children" fields with
      | Some (JArr _) => true
      | _ => false
      end
  | _ => false
  end.

(** The value stored under the first [children] key, when it is a list. *)
Fixpoint wf (rule : json) : bool :=
  node_ok rule &&
  match rule with
  | JObj fields =>
      (fix first (fs : list (string * json)) : bool :=
         match fs with
         | [] => true
         | (k, v) :: fs' =>
             if String.eqb "children" k
             then match v with
                  | JArr ch =>
                      (fix all (l : list json) : bool :=
                         match l with
                         | [] => true
                         | c :: l' => wf c && all l'
                         end) ch
                  | _ => true
                  end
             else first fs'
         end) fields
  | _ => true
  end.

(** The nodes of the tree, a node before its children, the children in
    the order of their list. *)
Fixpoint nodes (rule : json) : list json :=
  rule ::
  match rule with
  | JObj fields =>
      (fix first (fs : list (string * json)) : list json :=
         match fs with
         | [] => []
         | (k, v) :: fs' =>
             if String.eqb "children" k
             then match v with
                  | JArr ch =>
                      (fix cat (l : list json) : list json :=
                         match l with
                         | [] => []
                         | c :: l' => nodes c ++ cat l'
                         end) ch
                  | _ => []
                  end
             else first fs'
         end) fields
  | _ => []
  end.

(** The criterion as the flattener leaves it in node [node]. *)
Definition annotate (node : json) (criterion : json) : json :=
  match node, criterion with
  | JObj nf, JObj cf =>
      match Py.assoc "name" nf with
      | Some n => JObj (Py.assoc_set "rulename" n cf)
      | None => criterion
      end
  | _, _ => criterion
  end.

(** Every behavior of the tree, in document order. *)
Definition all_behaviors (rule : json) : list json :=
  flat_map node_behaviors (nodes rule).

(** Every criterion of the tree as its owning node leaves it, in
    document order. *)
Definition all_criteria (rule : json) : list json :=
  flat_map (fun node => map (annotate node) (node_criteria node))
           (nodes rule).

(** The entries of [l] whose name is [name], in the order of [l]. *)
Definition with_name (name : string) (l : list json) : list json :=
  filter (fun v => String.eqb (name_of v) name) l.

(** What a dictionary holds under a key whose entries are [l]: no key
    when there is none. *)
Definition bucket (l : list json) : option (list json) :=
  match l with
  | [] => None
  | _ => Some l
  end.

Definition has_field (k : string) (v : json) : bool :=
  match v with
  | JObj fields =>
      match Py.assoc k fields with Some _ => true | None => false end
  | _ => false
  end.

(** What [_runrules] does at a node before it goes down to the
    children: the loop over the behaviors, then the guarded loop over
    the criteria. *)
Definition visit (rule : json) (self : RuleInfo.t) : result RuleInfo.t :=
  behaviors <- Py.getitem rule "behaviors" ;;
  bs <- Py.iter behaviors ;;
  self1 <- for_each bs RuleInfo.add_behavior self ;;
  has_criteria <- Py.contains "criteria" rule ;;
  if has_criteria
  then
    criteria <- Py.getitem rule "criteria" ;;
    cs <- Py.iter criteria ;;
    for_each cs (RuleInfo.add_criterion rule) self1
  else Ok self1.

(** A dictionary after one more entry went to the bucket of its name,
    and after a list of entries did, one after the other. *)
Definition push (d : Py.buckets) (x : json) : Py.buckets :=
  let k := JStr (name_of x) in
  Py.store k
    (match Py.find k d with Some b => b | None => [] end ++ [x]) d.

Definition push_all (d : Py.buckets) (l : list json) : Py.buckets :=
  fold_left push l d.

End RuleTree.

(** ** Text helpers *)

Module Text.

(** [s.rstrip(c)] for a single character [c]. *)
Fixpoint rstrip (c : ascii) (s : string) : string :=
  match s with
  | EmptyString => EmptyString
  | String a rest =>
      match rstrip c rest with
      | EmptyString => if Ascii.eqb a c then EmptyString else String a EmptyString
      | r => String a r
      end
  end.

(** The piece of [s] before the first [c], and the pieces after it. *)
Fixpoint split_aux (c : ascii) (s : string) : string * list string :=
  match s with
  | EmptyString => (EmptyString, [])
  | String a rest =>
      let (h, t) := split_aux c rest in
      if Ascii.eqb a c then (EmptyString, h :: t) else (String a h, t)
  end.

(** [s.split(c)] for a single character [c]. *)
Definition split (c : ascii) (s : string) : list string :=
  let (h, t) := split_aux c s in h :: t.

(** [l[i]] on a list of strings, for [i >= 0]. *)
Definition item (l : list string) (i : nat) : result string :=
  match nth_error l i with
  | Some s => Ok s
  | None => Raise IndexError
  end.

(** The text after the first [c] of [s], and the text before it (all of
    [s] when it holds no [c]). *)
Fixpoint after_first (c : ascii) (s : string) : string :=
  match s with
  | EmptyString => EmptyString
  | String a rest => if Ascii.eqb a c then rest else after_first c rest
  end.

Fixpoint before_first (c : ascii) (s : string) : string :=
  match s with
  | EmptyString => EmptyString
  | String a rest =>
      if Ascii.eqb a c then EmptyString else String a (before_first c rest)
  end.

Fixpoint spaces (n : nat) : string :=
  match n with
  | O => EmptyString
  | S n' => String " " (spaces n')
  end.

(** [format(s, '<22')] style padding: spaces are added on the right up
    to [width] characters. *)
Definition ljust (width : nat) (s : string) : string :=
  (s ++ spaces (width - String.length s))%string.

End Text.

(** ** The classes of the script *)

(** What a command leaves behind: the lines printed to standard output and
    to standard error, and the exception that ended it, if any. *)
Record outcome : Type := mk_outcome {
  stdout : list string;
  stderr : list string;
  raised : option exn
}.

(** A loop whose body prints at most one line per item; the lines printed
    before an exception stay printed. *)
Fixpoint print_each {A : Type} (xs : list A)
  (line : A -> result (option string)) : list string * option exn :=
  match xs with
  | [] => ([], None)
  | x :: rest =>
      match line x with
      | Raise e => ([], Some e)
      | Ok o =>
          let (out, e) := print_each rest line in
          (match o with Some l => l :: out | None => out end, e)
      end
  end.

(** What lies outside the script is a variable of the section that uses
    it.  [repr v] is Python's text for a value that is not a string. *)

Module Fmt.
Section Repr.
Variable repr : json -> string.

(** [str(v)], also what [format] puts for a field without format
    spec. *)
Definition py_str (v : json) : string :=
  match v with
  | JStr s => s
  | _ => repr v
  end.

(** [format(v, '<22')]: strings and numbers are padded, a bool is
    formatted as the integer it is, other values refuse a format
    spec. *)
Definition format_left (width : nat) (v : json) : result string :=
  match v with
  | JStr s => Ok (Text.ljust width s)
  | JInt _ | JFloat _ => Ok (Text.ljust width (repr v))
  | JBool b => Ok (Text.ljust width (repr (JInt (Z.b2z b))))
  | JNull | JArr _ | JObj _ => Raise TypeError
  end.

(** A format string that is the one field [key], filled from the
    keyword mapping [kw]: [kw] has to be a mapping that has [key]. *)
Definition format_field (key : string) (kw : json) : result string :=
  match kw with
  | JObj _ => v <- Py.getitem kw key ;; Ok (py_str v)
  | _ => Raise TypeError
  end.
End Repr.
End Fmt.

Module CacheControl.
Section Files.
(** [os.path.expanduser], [os.path.expandvars], [open(name, 'r')] read
    to the end, and [json.load] on what was read. *)
Variable expanduser : string -> string.
Variable expandvars : string -> string.
Variable open_read : string -> result string.
Variable json_load : string -> result json.

Record t : Type := mk { _cachefolder : string }.

Definition init (cachefolder : string) : t :=
  mk (Text.rstrip "/" (expanduser (expandvars cachefolder))).

(** [cachename] with [mkdirs=False], the way [load] calls it. *)
Definition cachename (self : t) (cachename extension : string) : string :=
  (_cachefolder self ++ "/" ++ cachename ++ extension)%string.

Definition load (self : t) (name extension : string) : result json :=
  let fullname := cachename self name extension in
  match (text <- open_read fullname ;; json_load text) with
  | Ok data => Ok data
  | Raise FileNotFoundError => Ok JNull
  | Raise e => Raise e
  end.
End Files.
End CacheControl.

Module AkamaiBase.

(** The fields [_apipath] reads.  [_account] is what [--account] gave, if
    anything; [baseurl] is [https://] followed by the host of the edgerc
    section. *)
Record t : Type := mk {
  _account : option string;
  baseurl : string
}.

Definition init (host : string) (account : option string) : t :=
  mk account ("https://" ++ host)%string.

(** [if self._account:] *)
Definition account_given (self : t) : option string :=
  match _account self with
  | Some a => if String.eqb a "" then None else Some a
  | None => None
  end.

Section Url.
(** [urllib.parse.urlencode] and [urllib.parse.urljoin]. *)
Variable urlencode : list (string * json) -> string.
Variable urljoin : string -> string -> string.

Definition _apipath (self : t) (endpoint : string)
  (parameters : option (list (string * json))) : string :=
  let parameters :=
    match account_given self with
    | Some account =>
        let parameters :=
          match parameters with
          | None | Some [] => []
          | Some ps => ps
          end in
        Some (Py.assoc_set "accountSwitchKey" (JStr account) parameters)
    | None => parameters
    end in
  let ttpath :=
    match parameters with
    | Some (p :: ps) =>
        if negb (Py.is_infix "?" endpoint)
        then (endpoint ++ "?" ++ urlencode (p :: ps))%string
        else endpoint
    | _ => endpoint
    end in
  urljoin (baseurl self) ttpath.
End Url.

End AkamaiBase.

Module AkamaiDiag.
Section Api.
Variable repr : json -> string.
Variable urlencode : list (string * json) -> string.
Variable urljoin : string -> string -> string.
(** [session.get(url).json()] and [session.post(url, json=body).json()]
    with the fixed content type header of the script. *)
Variable session_get : string -> result json.
Variable session_post : string -> json -> result json.
(** The character-reference substitution inside [html.unescape]. *)
Variable charref_sub : string -> string.

Variable self : AkamaiBase.t.

Let _apipath := AkamaiBase._apipath urlencode urljoin self.
Let py_str := Fmt.py_str repr.

(** [html.unescape]: a string without an ampersand comes back as it
    is. *)
Definition html_unescape (s : string) : string :=
  if Py.is_infix "&" s then charref_sub s else s.

Definition urldebug (urltotest : string) : result json :=
  session_get
    (_apipath "/diagnostic-tools/v2/url-debug"
              (Some [("url", JStr urltotest)])).

(** The error code [reference] puts into the path. *)
Definition reference_code (errorCode : string) : result string :=
  let errorCode := html_unescape errorCode in
  if Py.is_infix "#" errorCode
  then Text.item (Text.split "#" errorCode) 1
  else Ok errorCode.

Definition reference_endpoint (code : string) : string :=
  ("/diagnostic-tools/v2/errors/" ++ code ++ "/translated-error")%string.

Definition reference (errorCode : string) : result json :=
  code <- reference_code errorCode ;;
  session_get (_apipath (reference_endpoint code) None).

(** An item of the search answer that has a production status other
    than ACTIVE. *)
Definition inactive (x : json) : bool :=
  match Py.getitem x "productionStatus" with
  | Ok status => negb (Py.eq_str status "ACTIVE")
  | Raise _ => false
  end.

(** The loop of [propertybyhostname]. *)
Fixpoint first_active (items : list json) : result json :=
  match items with
  | [] => Ok JNull
  | x :: rest =>
      status <- Py.getitem x "productionStatus" ;;
      if Py.eq_str status "ACTIVE" then Ok x else first_active rest
  end.

Definition propertybyhostname (hostname : string) : result json :=
  let reqbody := JObj [("hostname", JStr hostname)] in
  response <- session_post (_apipath "/papi/v1/search/find-by-value" None)
                           reqbody ;;
  versions <- Py.getitem response "versions" ;;
  items <- Py.getitem versions "items" ;;
  xs <- Py.iter items ;;
  first_active xs.

Definition propertyrules (hostname : string) : result json :=
  property <- propertybyhostname hostname ;;
  if Py.truthy property
  then
    propertyId <- Py.getitem property "propertyId" ;;
    propertyVersion <- Py.getitem property "propertyVersion" ;;
    let endpoint :=
      ("/papi/v1/properties/" ++ py_str propertyId ++ "/versions/"
         ++ py_str propertyVersion ++ "/rules")%string in
    contractId <- Py.getitem property "contractId" ;;
    groupId <- Py.getitem property "groupId" ;;
    session_get
      (_apipath endpoint
         (Some [("contractId", contractId); ("groupId", groupId);
                ("validateMode", JStr "fast");
                ("validateRules", JStr "false")]))
  else Ok JNull.

(** The list held under [origin], or [None]. *)
Definition origins (hostname : string) : result json :=
  rules <- propertyrules hostname ;;
  if Py.truthy rules
  then
    ruleinfo <- RuleInfo.init rules ;;
    bucket <- Py.dict_getitem (RuleInfo.behaviors ruleinfo) (JStr "origin") ;;
    Ok (JArr bucket)
  else Ok JNull.

End Api.
End AkamaiDiag.

(** ** The commands of the script *)

Module Main.
Section Commands.
Variable repr : json -> string.
(** [json.dumps(v, indent=2)] on a value decoded from JSON. *)
Variable json_dumps : json -> string.

Let py_str := Fmt.py_str repr.

(** One line of the [urldebug] listing, when the entry has a value. *)
Definition urldebug_line (x : json) : result (option string) :=
  value <- Py.getitem x "value" ;;
  if Py.truthy value
  then
    match x with
    | JObj _ =>
        name <- Py.getitem x "name" ;;
        left <- Fmt.format_left repr 22 name ;;
        value <- Py.getitem x "value" ;;
        Ok (Some (left ++ ": " ++ py_str value)%string)
    | _ => Raise TypeError
    end
  else Ok None.

(** The body of the [try] of the [urldebug] branch: the lines it
    printed, and the exception that ended it, if any. *)
Definition urldebug_listing (result : json) : list string * option exn :=
  match (dbg <- Py.getitem result "urlDebug" ;;
         resp <- Py.getitem dbg "httpResponse" ;;
         Py.iter resp) with
  | Raise e => ([], Some e)
  | Ok xs => print_each xs urldebug_line
  end.

(** The [urldebug] branch, from the answer of the API on: the bare
    [except] prints the whole answer. *)
Definition urldebug_command (result : json) : outcome :=
  match urldebug_listing result with
  | (out, None) => mk_outcome out [] None
  | (out, Some _) => mk_outcome (out ++ [json_dumps result]) [] None
  end.

(** One line of the [origins] listing, for the origin types the script
    knows. *)
Definition origins_line (x : json) : result (option string) :=
  o <- Py.getitem x "options" ;;
  originType <- Py.getitem o "originType" ;;
  if Py.eq_str originType "CUSTOMER"
  then l <- Fmt.format_field repr "hostname" o ;; Ok (Some l)
  else
    originType <- Py.getitem o "originType" ;;
    if Py.eq_str originType "NET_STORAGE"
    then
      netStorage <- Py.getitem o "netStorage" ;;
      l <- Fmt.format_field repr "downloadDomainName" netStorage ;;
      Ok (Some l)
    else Ok None.

Definition origins_problem : string :=
  "Problem, hostname incorrect or issue with accessing the API".

(** The [origins] branch, from the answer of [akadiag.origins] on. *)
Definition origins_command (answer : result json) : outcome :=
  match answer with
  | Raise e => mk_outcome [] [] (Some e)
  | Ok JNull => mk_outcome [] [origins_problem] None
  | Ok result =>
      match Py.iter result with
      | Raise e => mk_outcome [] [] (Some e)
      | Ok xs =>
          let (out, e) := print_each xs origins_line in
          mk_outcome out [] e
      end
  end.

End Commands.
End Main.

(** ** Sample data

    A property with two origins, one on the customer's host in the default
    rule and one on NetStorage in a child rule, and the answers of the API
    that lead to it. *)

Module Sample.

Definition origin_a : json :=
  JObj [("name", JStr "origin");
        ("options", JObj [("originType", JStr "CUSTOMER");
                          ("hostname", JStr "a.example.com");
                          ("httpPort", JInt 80)])].

Definition origin_b : json :=
  JObj [("name", JStr "origin");
        ("options",
         JObj [("originType", JStr "NET_STORAGE");
               ("netStorage",
                JObj [("downloadDomainName", JStr "b.example.com.download");
                      ("cpCode", JInt 12345)])])].

Definition caching : json :=
  JObj [("name", JStr "caching");
        ("options", JObj [("behavior", JStr "NO_STORE")])].

Definition extension : json :=
  JObj [("name", JStr "fileExtension");
        ("options", JObj [("values", JArr [JStr "css"; JStr "js"])])].

Definition static : json :=
  JObj [("name", JStr "Static");
        ("children", JArr []);
        ("behaviors", JArr [origin_b]);
        ("criteria", JArr [extension])].

Definition root : json :=
  JObj [("name", JStr "default");
        ("children", JArr [static]);
        ("behaviors", JArr [origin_a; caching]);
        ("options", JObj [("is_secure", JBool false)])].

Definition rules : json :=
  JObj [("accountId", JStr "act_1"); ("rules", root)].

(** The same property without any origin. *)
Definition bare_root : json :=
  JObj [("name", JStr "default");
        ("children", JArr []);
        ("behaviors", JArr [caching])].

Definition bare_rules : json :=
  JObj [("accountId", JStr "act_1"); ("rules", bare_root)].

Definition version (status : string) (number : Z) : json :=
  JObj [("propertyId", JStr "prp_1"); ("propertyVersion", JInt number);
        ("contractId", JStr "ctr_1"); ("groupId", JStr "grp_1");
        ("productionStatus", JStr status)].

Definition found : json :=
  JObj [("versions",
         JObj [("items", JArr [version "INACTIVE" 2; version "ACTIVE" 3])])].

Definition not_found : json :=
  JObj [("versions",
         JObj [("items", JArr [version "INACTIVE" 2;
                               version "DEACTIVATED" 1])])].

Definition repr (v : json) : string := "<value>".
Definition json_dumps (v : json) : string := "<json>".
Definition urlencode (ps : list (string * json)) : string := "<query>".
Definition urljoin (base path : string) : string := (base ++ path)%string.
Definition no_charref (s : string) : string := s.
Definition akadiag : AkamaiBase.t :=
  AkamaiBase.init "akab-host.luna.akamaiapis.net" None.

Definition answer (v : json) (url : string) : result json := Ok v.
Definition answer_post (v : json) (url : string) (body : json)
  : result json := Ok v.
Definition missing_file (name : string) : result string :=
  Raise FileNotFoundError.
Definition no_json (text : string) : result json :=
  Raise (OtherError "JSONDecodeError").

End Sample.

(** ** The rest of the script

    The parts below complete the picture: subscripts by a value, the
    [reference] branch and the end of the main program, and the writing
    side of the cache. *)

Module Index.

(** [l[i]] for an integer [i]: a negative index counts from the end. *)
Definition list_item {A : Type} (l : list A) (i : Z) : option A :=
  let n := Z.of_nat (List.length l) in
  let j := if i <? 0 then i + n else i in
  if (0 <=? j) && (j <? n) then nth_error l (Z.to_nat j) else None.

(** The integer an index stands for: a bool is the integer it is. *)
Definition as_index (v : json) : option Z :=
  match v with
  | JInt z => Some z
  | JBool b => Some (Z.b2z b)
  | _ => None
  end.

(** [obj[index]] for an index that is a value.  The keys of a dict are
    strings, so no other hashable key is found. *)
Definition subscript (obj index : json) : result json :=
  match obj with
  | JObj fields =>
      match index with
      | JStr k => Py.getitem obj k
      | JArr _ | JObj _ => Raise TypeError
      | _ => Raise (KeyError index)
      end
  | JArr items =>
      match as_index index with
      | Some i =>
          match list_item items i with
          | Some v => Ok v
          | None => Raise IndexError
          end
      | None => Raise TypeError
      end
  | JStr s =>
      match as_index index with
      | Some i =>
          match list_item (Py.chars s) i with
          | Some v => Ok v
          | None => Raise IndexError
          end
      | None => Raise TypeError
      end
  | _ => Raise TypeError
  end.

(** [isinstance(v, int)], which holds for a bool, and
    [isinstance(v, str)]. *)
Definition is_int (v : json) : bool :=
  match v with
  | JInt _ | JBool _ => true
  | _ => false
  end.

Definition is_str (v : json) : bool :=
  match v with
  | JStr _ => true
  | _ => false
  end.

End Index.

Module Script.

Inductive command : Type :=
| Urldebug (URL : string)
| Reference (reference : string)
| Origins (hostname : string)
| NoCommand.

(** What became of the file of [--json]. *)
Inductive export : Type :=
| NotOpened
| Truncated (path : string)
| Dumped (path : string) (result : json).

Record execution : Type := mk_execution {
  printed : outcome;
  exported : export
}.

Section Run.
Variable repr : json -> string.
Variable json_dumps : json -> string.
Variable urlencode : list (string * json) -> string.
Variable urljoin : string -> string -> string.
Variable session_get : string -> result json.
Variable session_post : string -> json -> result json.
Variable charref_sub : string -> string.
Variable akadiag : AkamaiBase.t.
(** The text of [parser.print_help()], and [open(path, 'w')]. *)
Variable usage : string.
Variable open_write : string -> result unit.

(** The line printed for the key [x] of the translated error [te]. *)
Definition reference_print (te x : json) : result (option string) :=
  v <- Index.subscript te x ;;
  left <- Fmt.format_left repr 22 x ;;
  Ok (Some (left ++ ": " ++ Fmt.py_str repr v)%string).

(** The body of the loop of the [reference] branch. *)
Definition reference_line (te x : json) : result (option string) :=
  v <- Index.subscript te x ;;
  if Py.truthy v
  then
    v1 <- Index.subscript te x ;;
    if Index.is_int v1
    then reference_print te x
    else
      v2 <- Index.subscript te x ;;
      if Index.is_str v2 then reference_print te x else Ok None
  else Ok None.

(** The [reference] branch, from the answer of the API on. *)
Definition reference_command (result : json) : outcome :=
  match Py.getitem result "translatedError" with
  | Raise e => mk_outcome [] [] (Some e)
  | Ok te =>
      match Py.iter te with
      | Raise e => mk_outcome [] [] (Some e)
      | Ok xs =>
          let (out, e) := print_each xs (reference_line te) in
          mk_outcome out [] e
      end
  end.

(** The branch of the command: what it prints, and the value the
    variable [result] is bound to, if it is bound at all. *)
Definition branch (c : command) : outcome * option json :=
  match c with
  | Urldebug URL =>
      match AkamaiDiag.urldebug urlencode urljoin session_get akadiag URL with
      | Raise e => (mk_outcome [] [] (Some e), None)
      | Ok result =>
          (Main.urldebug_command repr json_dumps result, Some result)
      end
  | Reference reference =>
      match AkamaiDiag.reference urlencode urljoin session_get charref_sub
              akadiag reference with
      | Raise e => (mk_outcome [] [] (Some e), None)
      | Ok result => (reference_command result, Some result)
      end
  | Origins hostname =>
      match AkamaiDiag.origins repr urlencode urljoin session_get
              session_post akadiag hostname with
      | Raise e => (mk_outcome [] [] (Some e), None)
      | Ok result => (Main.origins_command repr (Ok result), Some result)
      end
  | NoCommand => (mk_outcome [usage] [] None, None)
  end.

(** [if args.json:] *)
Definition json_given (json : option string) : option string :=
  match json with
  | Some path => if String.eqb path "" then None else Some path
  | None => None
  end.

Definition raise_in (out : outcome) (e : exn) : outcome :=
  mk_outcome (stdout out) (stderr out) (Some e).

(** The main program from the dispatch on, that is after the logging
    set-up and the construction of [akadiag], which [Program.run] puts
    before it: the branch of the command, then the export.  The file
    is opened before [result] is read. *)
Definition main (c : command) (json : option string) : execution :=
  let (out, result) := branch c in
  match raised out with
  | Some _ => mk_execution out NotOpened
  | None =>
      match json_given json with
      | None => mk_execution out NotOpened
      | Some path =>
          match open_write path with
          | Raise e => mk_execution (raise_in out e) NotOpened
          | Ok _ =>
              match result with
              | Some v => mk_execution out (Dumped path v)
              | None =>
                  mk_execution (raise_in out (OtherError "NameError"))
                               (Truncated path)
              end
          end
      end
  end.

End Run.
End Script.

(** The program from the parsed arguments on: the logging set-up of
    [--debug], the construction of [AkamaiDiag] from the edgerc, then the
    dispatch and the export of [Script.main]. *)
Module Program.

Record args : Type := mk_args {
  account : option string;
  edgerc : string;
  section : string;
  json_path : option string;
  debug : option string;
  command : Script.command
}.

Section Start.
Variable repr : json -> string.
Variable json_dumps : json -> string.
Variable urlencode : list (string * json) -> string.
Variable urljoin : string -> string -> string.
Variable session_get : string -> result json.
Variable session_post : string -> json -> result json.
Variable charref_sub : string -> string.
Variable usage : string.
Variable open_write : string -> result unit.
(** [logging.FileHandler(path)], which opens the log file, and the
    reading of the edgerc by [AkamaiBase.__init__]: the credentials and
    the [host] of the section, or the exception of a file or section
    that cannot be used. *)
Variable open_log : string -> result unit.
Variable read_host : string -> string -> result string.

(** [if args.debug:] and the set-up under it. *)
Definition logging (a : args) : result unit :=
  match Script.json_given (debug a) with
  | Some path => open_log path
  | None => Ok tt
  end.

(** [AkamaiDiag(args.edgerc, args.section, args.account)] *)
Definition connect (a : args) : result AkamaiBase.t :=
  host <- read_host (edgerc a) (section a) ;;
  Ok (AkamaiBase.init host (account a)).

Definition run (a : args) : Script.execution :=
  match (_ <- logging a ;; connect a) with
  | Raise e => Script.mk_execution (mk_outcome [] [] (Some e)) Script.NotOpened
  | Ok akadiag =>
      Script.main repr json_dumps urlencode urljoin session_get
                  session_post charref_sub akadiag usage open_write
                  (command a) (json_path a)
  end.

End Start.
End Program.

Module CacheStore.
Section Disk.
(** The state of the file system and what the script does to it:
    [os.makedirs(path, exist_ok=True)], [open(name, 'w')] with the text
    written and the file closed, [open(name, 'r')] read to the end; and
    [os.path.dirname], [json.dump] and [json.load]. *)
Variable disk : Type.
Variable makedirs : disk -> string -> result disk.
Variable write_file : disk -> string -> string -> result disk.
Variable read_file : disk -> string -> result string.
Variable dirname : string -> string.
Variable json_dump : json -> string.
Variable json_load : string -> result json.

(** [cachename] with its [mkdirs] argument. *)
Definition cachename (d : disk) (self : CacheControl.t)
  (cachename extension : string) (mkdirs : bool) : result (disk * string) :=
  let fullname :=
    (CacheControl._cachefolder self ++ "/" ++ cachename ++ extension)%string in
  if mkdirs
  then
    let folder := dirname cachename in
    d' <- makedirs d (CacheControl._cachefolder self ++ "/" ++ folder)%string ;;
    Ok (d', fullname)
  else Ok (d, fullname).

Definition dump (d : disk) (self : CacheControl.t) (name : string)
  (data : json) (extension : string) : result disk :=
  r <- cachename d self name extension true ;;
  write_file (fst r) (snd r) (json_dump data).

(** [load] on a given state of the file system. *)
Definition load (d : disk) (self : CacheControl.t)
  (name extension : string) : result json :=
  CacheControl.load (read_file d) json_load self name extension.

End Disk.
End CacheStore.

(** A file system that is a list of files, the newest first, and a JSON
    writer and reader that know one text. *)
Module Disk.

Definition t : Type := list (string * string).

Definition makedirs (d : t) (path : string) : result t := Ok d.

Definition write_file (d : t) (name text : string) : result t :=
  Ok ((name, text) :: d).

Fixpoint read_file (d : t) (name : string) : result string :=
  match d with
  | [] => Raise FileNotFoundError
  | (n, text) :: rest =>
      if String.eqb name n then Ok text else read_file rest name
  end.

Definition dirname (path : string) : string := "properties".

Definition json_dump (v : json) : string := "<text>".

Definition json_load (text : string) : result json :=
  if String.eqb text "<text>" then Ok Sample.found
  else Raise (OtherError "JSONDecodeError").

Definition open_write (path : string) : result unit := Ok tt.

Definition read_host (edgerc section : string) : result string :=
  if String.eqb section "default"
  then Ok "akab-host.luna.akamaiapis.net"%string
  else Raise (OtherError "NoSectionError").

Definition no_command (section : string) (json_path : option string)
  : Program.args :=
  Program.mk_args None "~/.edgerc" section json_path None Script.NoCommand.

End Disk.

(** The names of a list of entries in the order in which each name is seen
    first, after the names already [seen]. *)
Module Keys.

Fixpoint first_seen (seen : list string) (l : list json) : list string :=
  match l with
  | [] => seen
  | x :: rest =>
      let n := RuleTree.name_of x in
      first_seen (if existsb (String.eqb n) seen then seen else seen ++ [n])
                 rest
  end.

(** Every bucket of the dictionary holds an entry. *)
Definition filled (d : Py.buckets) : Prop :=
  Forall (fun kb => snd kb <> []) d.

Definition both_filled (self : RuleInfo.t) : Prop :=
  filled (RuleInfo._behaviors self) /\ filled (RuleInfo._criteria self).

End Keys.

Module Suffix.

(** [s.endswith(c)] for a single character [c]. *)
Fixpoint ends_with (c : ascii) (s : string) : bool :=
  match s with
  | EmptyString => false
  | String a rest =>
      match rest with
      | EmptyString => Ascii.eqb a c
      | String _ _ => ends_with c rest
      end
  end.

(** The string of [n] characters [c]. *)
Fixpoint run (c : ascii) (n : nat) : string :=
  match n with
  | O => EmptyString
  | S n' => String c (run c n')
  end.

End Suffix.

(** * Properties *)

(** ** The model on concrete values *)

Example split_reference :
  Text.split "#" "Error#A#B" = ["Error"; "A"; "B"]%string.
Proof. reflexivity. Qed.

Example split_empty : Text.split "#" "" = [""]%string.
Proof. reflexivity. Qed.

Example rstrip_folder : Text.rstrip "/" "~/.cache//" = "~/.cache".
Proof. reflexivity. Qed.

Example iter_string : Py.iter (JStr "ab") = Ok [JStr "a"; JStr "b"].
Proof. reflexivity. Qed.

Example key_true_is_one : Py.key_eq (JBool true) (JInt 1) = true.
Proof. reflexivity. Qed.

Example key_two_is_float_two :
  Py.key_eq (JInt 2) (JFloat (S754_finite false 1 1)) = true.
Proof. reflexivity. Qed.

Example key_string_is_not_number : Py.key_eq (JStr "1") (JInt 1) = false.
Proof. reflexivity. Qed.

Example nodes_sample : RuleTree.nodes Sample.root = [Sample.root; Sample.static].
Proof. reflexivity. Qed.

Example init_sample :
  RuleInfo.init Sample.rules
  = Ok (RuleInfo.mk
          [(JStr "origin", [Sample.origin_a; Sample.origin_b]);
           (JStr "caching", [Sample.caching])]
          [(JStr "fileExtension",
            [JObj [("name", JStr "fileExtension");
                   ("options", JObj [("values", JArr [JStr "css"; JStr "js"])]);
                   ("rulename", JStr "Static")]])]).
Proof. reflexivity. Qed.

Example runrules_behaviors_not_a_list :
  RuleInfo._runrules
    (JObj [("behaviors", JStr "x"); ("children", JArr [])]) (RuleInfo.mk [] [])
  = Raise TypeError.
Proof. reflexivity. Qed.

Example runrules_unhashable_name :
  RuleInfo._runrules
    (JObj [("behaviors", JArr [JObj [("name", JArr [])]]); ("children", JArr [])])
    (RuleInfo.mk [] [])
  = Raise TypeError.
Proof. reflexivity. Qed.

Example runrules_criteria_without_rule_name :
  RuleInfo._runrules
    (JObj [("behaviors", JArr []);
           ("criteria", JArr [JObj [("name", JStr "path")]]);
           ("children", JArr [])])
    (RuleInfo.mk [] [])
  = Raise (KeyError (JStr "name")).
Proof. reflexivity. Qed.

Example apipath_with_account :
  AkamaiBase._apipath Sample.urlencode Sample.urljoin
    (AkamaiBase.init "host" (Some "B-3-ABC"%string)) "/papi/v1/search" None
  = "https://host/papi/v1/search?<query>".
Proof. reflexivity. Qed.

Example apipath_without_account :
  AkamaiBase._apipath Sample.urlencode Sample.urljoin
    (AkamaiBase.init "host" None) "/papi/v1/search" None
  = "https://host/papi/v1/search".
Proof. reflexivity. Qed.

(** ** The result monad and loops *)

Lemma for_each_app {A S : Type} (xs ys : list A) (body : A -> S -> result S)
  (st : S) :
  for_each (xs ++ ys) body st
  = (st' <- for_each xs body st ;; for_each ys body st').
Proof.
  revert st. induction xs as [| x xs IH]; intros st; simpl.
  - reflexivity.
  - destruct (body x st) as [st1 | e]; simpl; [apply IH | reflexivity].
Qed.

Lemma for_each_ext {A S : Type} (xs : list A) (f g : A -> S -> result S) :
  (forall x, In x xs -> forall st, f x st = g x st) ->
  forall st, for_each xs f st = for_each xs g st.
Proof.
  induction xs as [| x xs IH]; intros Hfg st; simpl.
  - reflexivity.
  - rewrite (Hfg x (or_introl eq_refl)).
    destruct (g x st) as [st1 | e]; simpl; [| reflexivity].
    apply IH. intros y Hy. apply Hfg. right. exact Hy.
Qed.

(** ** Depth of the values a rule gives access to *)

Lemma depth_assoc (k : string) (fields : list (string * json)) (v : json) :
  Py.assoc k fields = Some v ->
  (RuleInfo.depth v < RuleInfo.depth (JObj fields))%nat.
Proof.
  simpl. induction fields as [| [k' v'] rest IH]; simpl; intros H.
  - discriminate H.
  - destruct (String.eqb k k').
    + injection H as ->. lia.
    + specialize (IH H). lia.
Qed.

Lemma depth_getitem (obj : json) (k : string) (v : json) :
  Py.getitem obj k = Ok v -> (RuleInfo.depth v < RuleInfo.depth obj)%nat.
Proof.
  destruct obj; simpl; try discriminate.
  destruct (Py.assoc k fields) eqn:E; [| discriminate].
  intros H. injection H as ->. exact (depth_assoc k fields _ E).
Qed.

Lemma depth_chars (s : string) (c : json) :
  In c (Py.chars s) -> RuleInfo.depth c = O.
Proof.
  induction s as [| a s IH]; simpl; [tauto |].
  intros [<- | H]; [reflexivity | exact (IH H)].
Qed.

Lemma depth_iter (v : json) (xs : list json) (c : json) :
  Py.iter v = Ok xs -> In c xs -> (RuleInfo.depth c <= RuleInfo.depth v)%nat.
Proof.
  destruct v; simpl; try discriminate; intros H Hin; injection H as <-.
  - rewrite (depth_chars s c Hin). lia.
  - induction items as [| x items IH]; [destruct Hin |].
    destruct Hin as [-> | Hin]; [lia | specialize (IH Hin); lia].
  - apply in_map_iff in Hin. destruct Hin as [kv [<- _]]. simpl. lia.
Qed.

(** Past the depth of the rule, a deeper cut changes nothing. *)
Lemma runrules_upto_enough (n : nat) :
  forall (m : nat) (rule : json) (self : RuleInfo.t),
    (RuleInfo.depth rule < n)%nat -> (RuleInfo.depth rule < m)%nat ->
    RuleInfo.runrules_upto n rule self = RuleInfo.runrules_upto m rule self.
Proof.
  induction n as [| n IH]; intros m rule self Hn Hm; [lia |].
  destruct m as [| m]; [lia |].
  simpl. unfold RuleInfo.runrules_body.
  destruct (Py.getitem rule "behaviors") as [behaviors | e]; [| reflexivity].
  simpl. destruct (Py.iter behaviors) as [bs | e]; [| reflexivity].
  simpl. destruct (for_each bs RuleInfo.add_behavior self) as [self1 | e];
    [| reflexivity].
  simpl. destruct (Py.contains "criteria" rule) as [has | e]; [| reflexivity].
  simpl.
  match goal with
  | |- bind ?c _ = bind ?c _ => destruct c as [self2 | e]; [| reflexivity]
  end.
  simpl. destruct (Py.getitem rule "children") as [children | e] eqn:Ech;
    [| reflexivity].
  simpl. destruct (Py.iter children) as [ch | e] eqn:Eit; [| reflexivity].
  simpl. apply for_each_ext. intros c Hc st.
  pose proof (depth_getitem rule "children" _ Ech) as H1.
  pose proof (depth_iter children _ c Eit Hc) as H2.
  apply IH; lia.
Qed.

(** [_runrules] satisfies the equation the source is written as. *)
Lemma runrules_unfold (rule : json) (self : RuleInfo.t) :
  RuleInfo._runrules rule self
  = RuleInfo.runrules_body RuleInfo._runrules rule self.
Proof.
  unfold RuleInfo._runrules at 1. simpl RuleInfo.runrules_upto.
  unfold RuleInfo.runrules_body.
  destruct (Py.getitem rule "behaviors") as [behaviors | e]; [| reflexivity].
  simpl. destruct (Py.iter behaviors) as [bs | e]; [| reflexivity].
  simpl. destruct (for_each bs RuleInfo.add_behavior self) as [self1 | e];
    [| reflexivity].
  simpl. destruct (Py.contains "criteria" rule) as [has | e]; [| reflexivity].
  simpl.
  match goal with
  | |- bind ?c _ = bind ?c _ => destruct c as [self2 | e]; [| reflexivity]
  end.
  simpl. destruct (Py.getitem rule "children") as [children | e] eqn:Ech;
    [| reflexivity].
  simpl. destruct (Py.iter children) as [ch | e] eqn:Eit; [| reflexivity].
  simpl. apply for_each_ext. intros c Hc st.
  pose proof (depth_getitem rule "children" _ Ech) as H1.
  pose proof (depth_iter children _ c Eit Hc) as H2.
  unfold RuleInfo._runrules. apply runrules_upto_enough; lia.
Qed.

(** ** Shape lemmas *)

Lemma nodes_eq (fields : list (string * json)) :
  RuleTree.nodes (JObj fields)
  = JObj fields :: flat_map RuleTree.nodes (RuleTree.node_children (JObj fields)).
Proof.
  simpl. f_equal.
  induction fields as [| [k v] rest IH]; simpl; [reflexivity |].
  destruct (String.eqb "children" k); [| exact IH].
  destruct v; reflexivity.
Qed.

Lemma wf_eq (fields : list (string * json)) :
  RuleTree.wf (JObj fields)
  = RuleTree.node_ok (JObj fields)
    && forallb RuleTree.wf (RuleTree.node_children (JObj fields)).
Proof.
  cbn [RuleTree.wf]. f_equal.
  unfold RuleTree.node_children.
  induction fields as [| [k v] rest IH]; [reflexivity |].
  cbn [Py.assoc]. destruct (String.eqb "children" k); [| exact IH].
  destruct v; reflexivity.
Qed.

Lemma wf_is_object (rule : json) :
  RuleTree.wf rule = true -> exists fields, rule = JObj fields.
Proof.
  destruct rule; simpl; try discriminate.
  intros _. eexists. reflexivity.
Qed.

Lemma depth_children (rule c : json) :
  In c (RuleTree.node_children rule) ->
  (RuleInfo.depth c < RuleInfo.depth rule)%nat.
Proof.
  destruct rule; simpl; try tauto.
  destruct (Py.assoc "children" fields) as [v |] eqn:E; [| simpl; tauto].
  destruct v; simpl; try tauto.
  intros Hin.
  pose proof (depth_assoc "children" fields _ E) as H1.
  pose proof (depth_iter (JArr items) items c eq_refl Hin) as H2.
  simpl in H1, H2. simpl. lia.
Qed.

(** The nodes of a well-formed tree are well-formed one by one. *)
Lemma wf_nodes (n : nat) :
  forall rule, (RuleInfo.depth rule < n)%nat -> RuleTree.wf rule = true ->
    Forall (fun node => RuleTree.node_ok node = true) (RuleTree.nodes rule).
Proof.
  induction n as [| n IH]; intros rule Hd Hwf; [lia |].
  destruct (wf_is_object rule Hwf) as [fields ->].
  rewrite wf_eq in Hwf. apply andb_true_iff in Hwf. destruct Hwf as [Hok Hch].
  rewrite nodes_eq. constructor; [exact Hok |].
  rewrite forallb_forall in Hch.
  apply Forall_flat_map. apply Forall_forall. intros c Hc.
  apply IH; [| exact (Hch c Hc)].
  pose proof (depth_children (JObj fields) c Hc). lia.
Qed.

(** ** The bucket dictionaries *)

Lemma key_eq_str (n : string) (k : json) :
  Py.key_eq (JStr n) k = true -> k = JStr n.
Proof.
  destruct k; simpl; try discriminate.
  intros H. apply String.eqb_eq in H. subst. reflexivity.
Qed.

Lemma find_store (m n : string) (b : list json) (d : Py.buckets) :
  Py.find (JStr m) (Py.store (JStr n) b d)
  = if String.eqb m n then Some b else Py.find (JStr m) d.
Proof.
  induction d as [| [k' b'] rest IH].
  - cbn [Py.store Py.find Py.key_eq]. reflexivity.
  - cbn [Py.store Py.find].
    destruct (Py.key_eq (JStr n) k') eqn:E.
    + apply key_eq_str in E. subst k'. cbn [Py.find Py.key_eq].
      destruct (String.eqb m n); reflexivity.
    + cbn [Py.find]. rewrite IH.
      destruct (String.eqb m n) eqn:Emn; [| reflexivity].
      apply String.eqb_eq in Emn. subst m. rewrite E. reflexivity.
Qed.

Lemma store_store (n : string) (b c : list json) (d : Py.buckets) :
  Py.store (JStr n) c (Py.store (JStr n) b d) = Py.store (JStr n) c d.
Proof.
  induction d as [| [k' b'] rest IH]; cbn [Py.store].
  - cbn [Py.key_eq]. rewrite String.eqb_refl. reflexivity.
  - destruct (Py.key_eq (JStr n) k') eqn:E; cbn [Py.store]; rewrite E.
    + reflexivity.
    + rewrite IH. reflexivity.
Qed.

(** A named entry goes to the end of the bucket of its name. *)
Lemma append_named (d : Py.buckets) (n : string) (x : json) :
  (d1 <- RuleInfo.ensure_bucket d (JStr n) ;; Py.dict_append d1 (JStr n) x)
  = Ok (Py.store (JStr n)
          (match Py.find (JStr n) d with Some b => b | None => [] end ++ [x]) d).
Proof.
  unfold RuleInfo.ensure_bucket, Py.dict_contains, Py.dict_append,
    Py.dict_getitem, Py.dict_setitem.
  cbn [Py.hashable bind].
  destruct (Py.find (JStr n) d) as [b |] eqn:E; cbn [bind].
  - rewrite E. reflexivity.
  - rewrite find_store, String.eqb_refl. cbn [bind].
    rewrite store_store. reflexivity.
Qed.

Lemma named_getitem (x : json) :
  RuleTree.named x = true -> Py.getitem x "name" = Ok (JStr (RuleTree.name_of x)).
Proof.
  destruct x; simpl; try discriminate.
  destruct (Py.assoc "name" fields) as [[] |]; try discriminate.
  reflexivity.
Qed.

Lemma add_behavior_named (b : json) (self : RuleInfo.t) :
  RuleTree.named b = true ->
  RuleInfo.add_behavior b self
  = Ok (RuleInfo.mk (RuleTree.push (RuleInfo._behaviors self) b)
                    (RuleInfo._criteria self)).
Proof.
  intros Hn. unfold RuleInfo.add_behavior.
  rewrite (named_getitem b Hn). cbn [bind].
  pose proof (append_named (RuleInfo._behaviors self) (RuleTree.name_of b) b)
    as H.
  destruct (RuleInfo.ensure_bucket (RuleInfo._behaviors self)
              (JStr (RuleTree.name_of b))) as [d1 | e]; cbn [bind] in *.
  - rewrite H. reflexivity.
  - discriminate H.
Qed.

Lemma for_each_add_behavior (bs : list json) :
  forall self, forallb RuleTree.named bs = true ->
    for_each bs RuleInfo.add_behavior self
    = Ok (RuleInfo.mk (RuleTree.push_all (RuleInfo._behaviors self) bs)
                      (RuleInfo._criteria self)).
Proof.
  induction bs as [| b bs IH]; intros self H.
  - destruct self. reflexivity.
  - cbn [forallb] in H. apply andb_true_iff in H. destruct H as [Hb Hbs].
    cbn [for_each]. rewrite (add_behavior_named b self Hb). cbn [bind].
    rewrite IH by exact Hbs. reflexivity.
Qed.

Lemma assoc_set_other (k k' : string) (v : json) (fields : list (string * json)) :
  String.eqb k k' = false ->
  Py.assoc k (Py.assoc_set k' v fields) = Py.assoc k fields.
Proof.
  intros Hk. induction fields as [| [k0 v0] rest IH]; cbn [Py.assoc_set Py.assoc].
  - rewrite Hk. reflexivity.
  - destruct (String.eqb k' k0) eqn:E; cbn [Py.assoc].
    + apply String.eqb_eq in E. subst k0. rewrite Hk. reflexivity.
    + rewrite IH. reflexivity.
Qed.

Lemma annotate_name (node c : json) :
  RuleTree.name_of (RuleTree.annotate node c) = RuleTree.name_of c.
Proof.
  destruct node, c; try reflexivity.
  unfold RuleTree.annotate.
  destruct (Py.assoc "name" fields); [| reflexivity].
  unfold RuleTree.name_of. rewrite assoc_set_other by reflexivity. reflexivity.
Qed.

Lemma annotate_named (node c : json) :
  RuleTree.named (RuleTree.annotate node c) = RuleTree.named c.
Proof.
  destruct node, c; try reflexivity.
  unfold RuleTree.annotate.
  destruct (Py.assoc "name" fields); [| reflexivity].
  unfold RuleTree.named. rewrite assoc_set_other by reflexivity. reflexivity.
Qed.

Lemma add_criterion_named (node c nm : json) (self : RuleInfo.t) :
  Py.getitem node "name" = Ok nm ->
  RuleTree.named c = true ->
  RuleInfo.add_criterion node c self
  = Ok (RuleInfo.mk (RuleInfo._behaviors self)
          (RuleTree.push (RuleInfo._criteria self) (RuleTree.annotate node c))).
Proof.
  intros Hnode Hc. unfold RuleInfo.add_criterion.
  rewrite (named_getitem c Hc). cbn [bind].
  pose proof (append_named (RuleInfo._criteria self) (RuleTree.name_of c)
                (RuleTree.annotate node c)) as H.
  destruct (RuleInfo.ensure_bucket (RuleInfo._criteria self)
              (JStr (RuleTree.name_of c))) as [d1 | e]; cbn [bind] in *;
    [| discriminate H].
  rewrite Hnode. cbn [bind].
  assert (Hset : Py.setitem c "rulename" nm = Ok (RuleTree.annotate node c)).
  { destruct c; try discriminate Hc. destruct node; try discriminate Hnode.
    unfold Py.getitem in Hnode. unfold RuleTree.annotate, Py.setitem.
    destruct (Py.assoc "name" fields0); [| discriminate Hnode].
    injection Hnode as ->. reflexivity. }
  rewrite Hset. cbn [bind].
  rewrite named_getitem by (rewrite annotate_named; exact Hc).
  cbn [bind]. rewrite annotate_name. rewrite H.
  unfold RuleTree.push. rewrite annotate_name. reflexivity.
Qed.

Lemma for_each_add_criterion (node nm : json) (cs : list json) :
  Py.getitem node "name" = Ok nm ->
  forall self, forallb RuleTree.named cs = true ->
    for_each cs (RuleInfo.add_criterion node) self
    = Ok (RuleInfo.mk (RuleInfo._behaviors self)
            (RuleTree.push_all (RuleInfo._criteria self)
               (map (RuleTree.annotate node) cs))).
Proof.
  intros Hnode. induction cs as [| c cs IH]; intros self H.
  - destruct self. reflexivity.
  - cbn [forallb] in H. apply andb_true_iff in H. destruct H as [Hc Hcs].
    cbn [for_each]. rewrite (add_criterion_named node c nm self Hnode Hc). cbn [bind].
    rewrite IH by exact Hcs. reflexivity.
Qed.

(** ** One node, then the whole tree *)

Lemma body_visit (recur : json -> RuleInfo.t -> result RuleInfo.t)
  (rule : json) (self : RuleInfo.t) :
  RuleInfo.runrules_body recur rule self
  = (self2 <- RuleTree.visit rule self ;;
     children <- Py.getitem rule "children" ;;
     ch <- Py.iter children ;;
     for_each ch recur self2).
Proof.
  unfold RuleInfo.runrules_body, RuleTree.visit.
  destruct (Py.getitem rule "behaviors") as [behaviors | e]; [| reflexivity].
  cbn [bind]. destruct (Py.iter behaviors) as [bs | e]; [| reflexivity].
  cbn [bind].
  destruct (for_each bs RuleInfo.add_behavior self) as [self1 | e];
    [| reflexivity].
  cbn [bind].
  destruct (Py.contains "criteria" rule) as [[] | e]; reflexivity.
Qed.

Lemma visit_ok (node : json) (self : RuleInfo.t) :
  RuleTree.node_ok node = true ->
  RuleTree.visit node self
  = Ok (RuleInfo.mk
          (RuleTree.push_all (RuleInfo._behaviors self)
             (RuleTree.node_behaviors node))
          (RuleTree.push_all (RuleInfo._criteria self)
             (map (RuleTree.annotate node) (RuleTree.node_criteria node)))).
Proof.
  destruct node as [| | | | | | fields]; try discriminate.
  unfold RuleTree.node_ok, RuleTree.visit, RuleTree.node_behaviors,
    RuleTree.node_criteria, Py.getitem, Py.contains.
  destruct (Py.assoc "behaviors" fields) as [[| | | | | bs |] |];
    try discriminate.
  intros H. apply andb_true_iff in H. destruct H as [H Hch].
  apply andb_true_iff in H. destruct H as [Hbs Hcs].
  cbn [bind Py.iter]. rewrite for_each_add_behavior by exact Hbs.
  cbn [bind].
  destruct (Py.assoc "criteria" fields) as [[| | | | | cs |] |];
    try discriminate; cbn [bind Py.iter]; [| reflexivity].
  destruct cs as [| c cs]; [reflexivity |].
  apply andb_true_iff in Hcs. destruct Hcs as [Hcs Hname].
  destruct (Py.assoc "name" fields) as [nm |] eqn:En; [| discriminate].
  rewrite (for_each_add_criterion (JObj fields) nm (c :: cs)).
  - reflexivity.
  - unfold Py.getitem. rewrite En. reflexivity.
  - exact Hcs.
Qed.

Lemma node_ok_children (node : json) :
  RuleTree.node_ok node = true ->
  (children <- Py.getitem node "children" ;; Py.iter children)
  = Ok (RuleTree.node_children node).
Proof.
  destruct node as [| | | | | | fields]; try discriminate.
  unfold RuleTree.node_ok, RuleTree.node_children, Py.getitem.
  intros H. apply andb_true_iff in H. destruct H as [_ H].
  destruct (Py.assoc "children" fields) as [[| | | | | ch |] |];
    try discriminate.
  reflexivity.
Qed.

(** On a well-formed tree [_runrules] is the loop over the nodes in
    pre-order, each node being visited once. *)
Lemma runrules_preorder (n : nat) :
  forall rule self, (RuleInfo.depth rule < n)%nat -> RuleTree.wf rule = true ->
    RuleInfo._runrules rule self
    = for_each (RuleTree.nodes rule) RuleTree.visit self.
Proof.
  induction n as [| n IH]; intros rule self Hd Hwf; [lia |].
  rewrite runrules_unfold, body_visit.
  destruct (wf_is_object rule Hwf) as [fields ->].
  rewrite nodes_eq. rewrite wf_eq in Hwf.
  apply andb_true_iff in Hwf. destruct Hwf as [Hok Hch].
  cbn [for_each].
  destruct (RuleTree.visit (JObj fields) self) as [self2 | e]; [| reflexivity].
  cbn [bind].
  pose proof (node_ok_children (JObj fields) Hok) as Hc.
  destruct (Py.getitem (JObj fields) "children") as [children | e];
    [| discriminate Hc].
  cbn [bind] in *. rewrite Hc. cbn [bind].
  pose proof (depth_children (JObj fields)) as Hdepth.
  rewrite forallb_forall in Hch.
  revert self2 Hch Hdepth.
  generalize (RuleTree.node_children (JObj fields)) as ch.
  induction ch as [| c ch IHch]; intros self2 Hch Hdepth; [reflexivity |].
  cbn [for_each flat_map]. rewrite for_each_app.
  rewrite IH; [| specialize (Hdepth c (or_introl eq_refl)); lia
               | apply Hch; left; reflexivity].
  destruct (for_each (RuleTree.nodes c) RuleTree.visit self2); [| reflexivity].
  cbn [bind]. apply IHch.
  - intros x Hx. apply Hch. right. exact Hx.
  - intros x Hx. apply Hdepth. right. exact Hx.
Qed.

Lemma push_all_app (d : Py.buckets) (l1 l2 : list json) :
  RuleTree.push_all d (l1 ++ l2) = RuleTree.push_all (RuleTree.push_all d l1) l2.
Proof. unfold RuleTree.push_all. apply fold_left_app. Qed.

Lemma for_each_visit (ns : list json) :
  Forall (fun node => RuleTree.node_ok node = true) ns ->
  forall self,
    for_each ns RuleTree.visit self
    = Ok (RuleInfo.mk
            (RuleTree.push_all (RuleInfo._behaviors self)
               (flat_map RuleTree.node_behaviors ns))
            (RuleTree.push_all (RuleInfo._criteria self)
               (flat_map (fun node => map (RuleTree.annotate node)
                                          (RuleTree.node_criteria node)) ns))).
Proof.
  induction 1 as [| node ns Hnode _ IH]; intros self.
  - destruct self. reflexivity.
  - cbn [for_each flat_map]. rewrite (visit_ok node self Hnode). cbn [bind].
    rewrite IH. cbn [RuleInfo._behaviors RuleInfo._criteria].
    rewrite !push_all_app. reflexivity.
Qed.

(** The flattener on a well-formed tree, from any starting dictionaries. *)
Lemma runrules_flatten (rule : json) (self : RuleInfo.t) :
  RuleTree.wf rule = true ->
  RuleInfo._runrules rule self
  = Ok (RuleInfo.mk
          (RuleTree.push_all (RuleInfo._behaviors self)
             (RuleTree.all_behaviors rule))
          (RuleTree.push_all (RuleInfo._criteria self)
             (RuleTree.all_criteria rule))).
Proof.
  intros Hwf.
  rewrite (runrules_preorder (S (RuleInfo.depth rule)) rule self) by
    (auto with arith).
  apply for_each_visit.
  apply (wf_nodes (S (RuleInfo.depth rule))); auto with arith.
Qed.

Lemma getitem_truthy (obj : json) (k : string) (v : json) :
  Py.getitem obj k = Ok v -> Py.truthy obj = true.
Proof.
  destruct obj; try discriminate. destruct fields; [discriminate | reflexivity].
Qed.

Lemma init_flatten (rules root : json) :
  Py.getitem rules "rules" = Ok root ->
  RuleTree.wf root = true ->
  RuleInfo.init rules
  = Ok (RuleInfo.mk (RuleTree.push_all [] (RuleTree.all_behaviors root))
                    (RuleTree.push_all [] (RuleTree.all_criteria root))).
Proof.
  intros Hget Hwf. unfold RuleInfo.init.
  rewrite (getitem_truthy rules "rules" root Hget), Hget. cbn [bind].
  apply (runrules_flatten root (RuleInfo.mk [] []) Hwf).
Qed.

(** ** What the buckets hold *)

Lemma find_push (m : string) (d : Py.buckets) (x : json) :
  Py.find (JStr m) (RuleTree.push d x)
  = if String.eqb (RuleTree.name_of x) m
    then Some (match Py.find (JStr m) d with Some b => b | None => [] end ++ [x])
    else Py.find (JStr m) d.
Proof.
  unfold RuleTree.push. rewrite find_store.
  rewrite (String.eqb_sym m). destruct (String.eqb (RuleTree.name_of x) m) eqn:E.
  - apply String.eqb_eq in E. subst m. reflexivity.
  - reflexivity.
Qed.

Lemma find_push_all (m : string) (l : list json) :
  forall d,
    Py.find (JStr m) (RuleTree.push_all d l)
    = match RuleTree.with_name m l with
      | [] => Py.find (JStr m) d
      | es => Some (match Py.find (JStr m) d with Some b => b | None => [] end
                    ++ es)
      end.
Proof.
  induction l as [| x l IH]; intros d; [reflexivity |].
  cbn [RuleTree.push_all fold_left]. fold (RuleTree.push_all (RuleTree.push d x) l).
  rewrite IH, find_push. cbn [RuleTree.with_name filter].
  fold (RuleTree.with_name m l).
  destruct (String.eqb (RuleTree.name_of x) m).
  - destruct (RuleTree.with_name m l); [reflexivity |].
    rewrite <- app_assoc. reflexivity.
  - reflexivity.
Qed.

Lemma find_flat (m : string) (l : list json) :
  Py.find (JStr m) (RuleTree.push_all [] l)
  = RuleTree.bucket (RuleTree.with_name m l).
Proof.
  rewrite find_push_all. cbn [Py.find].
  destruct (RuleTree.with_name m l); reflexivity.
Qed.

Lemma push_entries (d : Py.buckets) (x : json) :
  Permutation (List.concat (map snd (RuleTree.push d x))) (List.concat (map snd d) ++ [x]).
Proof.
  unfold RuleTree.push. generalize (JStr (RuleTree.name_of x)) as k. intros k.
  induction d as [| [k' b'] rest IH]; cbn [Py.find Py.store].
  - reflexivity.
  - destruct (Py.key_eq k k'); cbn [map snd List.concat].
    + rewrite <- !app_assoc. apply Permutation_app_head.
      apply Permutation_app_comm.
    + rewrite <- app_assoc. apply Permutation_app_head. exact IH.
Qed.

Lemma push_all_entries (l : list json) :
  forall d,
    Permutation (List.concat (map snd (RuleTree.push_all d l)))
                (List.concat (map snd d) ++ l).
Proof.
  induction l as [| x l IH]; intros d.
  - cbn [RuleTree.push_all fold_left]. rewrite app_nil_r. reflexivity.
  - cbn [RuleTree.push_all fold_left].
    fold (RuleTree.push_all (RuleTree.push d x) l).
    rewrite IH, push_entries, <- app_assoc. reflexivity.
Qed.

(** ** Missing fields *)












(** ** The flattened index *)

(** Claim C2.  Constructing [RuleInfo] from an absent or otherwise falsy
    rule tree gives two empty mappings, and so does a well-formed rule tree
    none of whose nodes has a behavior or a criterion. *)
Theorem init_empty (rules : json) :
  (Py.truthy rules = false -> RuleInfo.init rules = Ok (RuleInfo.mk [] []))
  /\ (forall root,
         Py.getitem rules "rules" = Ok root ->
         RuleTree.wf root = true ->
         RuleTree.all_behaviors root = [] ->
         RuleTree.all_criteria root = [] ->
         exists info,
           RuleInfo.init rules = Ok info
           /\ RuleInfo.behaviors info = [] /\ RuleInfo.criteria info = []).
Proof.
  split.
  - intros H. unfold RuleInfo.init. rewrite H. reflexivity.
  - intros root Hget Hwf Hb Hc.
    rewrite (init_flatten rules root Hget Hwf), Hb, Hc.
    eexists. split; [reflexivity |]. split; reflexivity.
Qed.

Lemma init_empty_witness :
  RuleInfo.init JNull = Ok (RuleInfo.mk [] [])
  /\ exists info,
       RuleInfo.init
         (JObj [("rules",
                 JObj [("name", JStr "default"); ("behaviors", JArr []);
                       ("criteria", JArr []);
                       ("children",
                        JArr [JObj [("name", JStr "empty");
                                    ("behaviors", JArr []);
                                    ("children", JArr [])]])])])
       = Ok info
       /\ RuleInfo.behaviors info = [] /\ RuleInfo.criteria info = [].
Proof.
  split.
  - apply (init_empty JNull). reflexivity.
  - eapply (init_empty (JObj [("rules", _)])); reflexivity.
Defined.

Lemma in_with_name (x : json) (l : list json) :
  In x l -> In x (RuleTree.with_name (RuleTree.name_of x) l).
Proof.
  intros H. unfold RuleTree.with_name. apply filter_In.
  split; [exact H | apply String.eqb_refl].
Qed.

Lemma node_ok_behaviors (node b : json) :
  RuleTree.node_ok node = true ->
  In b (RuleTree.node_behaviors node) ->
  RuleTree.named b = true.
Proof.
  destruct node as [| | | | | | fields]; try discriminate.
  unfold RuleTree.node_ok, RuleTree.node_behaviors.
  destruct (Py.assoc "behaviors" fields) as [[| | | | | bs |] |];
    try discriminate.
  intros H Hin. apply andb_true_iff in H. destruct H as [H _].
  apply andb_true_iff in H. destruct H as [H _].
  rewrite forallb_forall in H. exact (H b Hin).
Qed.

(** Claim C3.  On every well-formed rule tree the flattener is the loop
    over the nodes in depth-first pre-order that handles the behaviors and
    criteria of a node before any of its children; it succeeds; the bucket
    of each name holds the behaviors of that name in document order; and
    the buckets together hold every behavior of every node exactly once,
    each in the bucket found under its own [name]. *)
Theorem flatten_behaviors (rules root : json) :
  Py.getitem rules "rules" = Ok root ->
  RuleTree.wf root = true ->
  (forall self,
      RuleInfo._runrules root self
      = for_each (RuleTree.nodes root) RuleTree.visit self)
  /\ exists info,
       RuleInfo.init rules = Ok info
       /\ (forall name,
              Py.find (JStr name) (RuleInfo.behaviors info)
              = RuleTree.bucket
                  (RuleTree.with_name name (RuleTree.all_behaviors root)))
       /\ Permutation (List.concat (map snd (RuleInfo.behaviors info)))
                      (RuleTree.all_behaviors root)
       /\ (forall node b,
              In node (RuleTree.nodes root) ->
              In b (RuleTree.node_behaviors node) ->
              exists entries,
                Py.getitem b "name" = Ok (JStr (RuleTree.name_of b))
                /\ Py.find (JStr (RuleTree.name_of b)) (RuleInfo.behaviors info)
                   = Some entries
                /\ In b entries).
Proof.
  intros Hget Hwf. split.
  - intros self.
    apply (runrules_preorder (S (RuleInfo.depth root))); auto with arith.
  - rewrite (init_flatten rules root Hget Hwf).
    eexists. split; [reflexivity |].
    unfold RuleInfo.behaviors. cbn [RuleInfo._behaviors].
    split; [intros name; apply find_flat |].
    split; [apply (push_all_entries (RuleTree.all_behaviors root) []) |].
    intros node b Hnode Hb.
    assert (Hok : RuleTree.node_ok node = true).
    { pose proof (wf_nodes (S (RuleInfo.depth root)) root
                    (Nat.lt_succ_diag_r _) Hwf) as Hall.
      rewrite Forall_forall in Hall. exact (Hall node Hnode). }
    assert (Hin : In b (RuleTree.all_behaviors root)).
    { unfold RuleTree.all_behaviors. apply in_flat_map. exists node.
      split; assumption. }
    apply in_with_name in Hin. rewrite find_flat.
    destruct (RuleTree.with_name (RuleTree.name_of b)
                (RuleTree.all_behaviors root)) as [| e es]; [destruct Hin |].
    exists (e :: es). split; [| split; [reflexivity | exact Hin]].
    apply named_getitem. apply (node_ok_behaviors node b Hok Hb).
Qed.

Lemma annotate_rulename (node c : json) :
  RuleTree.node_ok node = true ->
  In c (RuleTree.node_criteria node) ->
  exists nm,
    Py.getitem node "name" = Ok nm
    /\ Py.getitem (RuleTree.annotate node c) "rulename" = Ok nm
    /\ forall k, String.eqb k "rulename" = false ->
         Py.getitem (RuleTree.annotate node c) k = Py.getitem c k.
Proof.
  destruct node as [| | | | | | fields]; try discriminate.
  unfold RuleTree.node_ok, RuleTree.node_criteria.
  destruct (Py.assoc "behaviors" fields) as [[| | | | | bs |] |];
    try discriminate.
  destruct (Py.assoc "criteria" fields) as [[| | | | | cs |] |];
    try (intros _ []).
  destruct cs as [| c0 cs]; [intros _ [] |].
  intros H Hin.
  apply andb_true_iff in H. destruct H as [H _].
  apply andb_true_iff in H. destruct H as [_ H].
  apply andb_true_iff in H. destruct H as [Hnamed Hname].
  rewrite forallb_forall in Hnamed. specialize (Hnamed c Hin).
  unfold Py.getitem at 1. unfold RuleTree.annotate.
  destruct (Py.assoc "name" fields) as [nm |]; [| discriminate].
  exists nm. split; [reflexivity |].
  destruct c as [| | | | | | cf]; try discriminate.
  unfold Py.getitem. split.
  - assert (Hs : forall l, Py.assoc "rulename" (Py.assoc_set "rulename" nm l)
                           = Some nm).
    { induction l as [| [k0 v0] l IHl]; cbn [Py.assoc_set Py.assoc].
      - reflexivity.
      - destruct (String.eqb "rulename" k0) eqn:E; cbn [Py.assoc]; rewrite E.
        + reflexivity.
        + exact IHl. }
    rewrite Hs. reflexivity.
  - intros k Hk. rewrite (assoc_set_other k "rulename" nm cf Hk). reflexivity.
Qed.

(** Claim C4.  On every well-formed rule tree the flattener succeeds; the
    bucket of each name holds the criteria of that name in document order,
    and the buckets together hold every criterion of every node exactly
    once, each as it is after [rulename] was set: for a criterion [c] of a
    node [node], the entry found under the name of [c] has the [name] of
    [node] as its [rulename] and the fields of [c] otherwise. *)
Theorem flatten_criteria (rules root : json) :
  Py.getitem rules "rules" = Ok root ->
  RuleTree.wf root = true ->
  exists info,
    RuleInfo.init rules = Ok info
    /\ (forall name,
           Py.find (JStr name) (RuleInfo.criteria info)
           = RuleTree.bucket
               (RuleTree.with_name name (RuleTree.all_criteria root)))
    /\ Permutation (List.concat (map snd (RuleInfo.criteria info)))
                   (RuleTree.all_criteria root)
    /\ (forall node c,
           In node (RuleTree.nodes root) ->
           In c (RuleTree.node_criteria node) ->
           exists entries nm,
             Py.find (JStr (RuleTree.name_of c)) (RuleInfo.criteria info)
             = Some entries
             /\ In (RuleTree.annotate node c) entries
             /\ Py.getitem node "name" = Ok nm
             /\ Py.getitem (RuleTree.annotate node c) "rulename" = Ok nm
             /\ forall k, String.eqb k "rulename" = false ->
                  Py.getitem (RuleTree.annotate node c) k = Py.getitem c k).
Proof.
  intros Hget Hwf. rewrite (init_flatten rules root Hget Hwf).
  eexists. split; [reflexivity |].
  unfold RuleInfo.criteria. cbn [RuleInfo._criteria].
  split; [intros name; apply find_flat |].
  split; [apply (push_all_entries (RuleTree.all_criteria root) []) |].
  intros node c Hnode Hc.
  assert (Hok : RuleTree.node_ok node = true).
  { pose proof (wf_nodes (S (RuleInfo.depth root)) root
                  (Nat.lt_succ_diag_r _) Hwf) as Hall.
    rewrite Forall_forall in Hall. exact (Hall node Hnode). }
  destruct (annotate_rulename node c Hok Hc) as [nm [Hnm [Hrn Hrest]]].
  assert (Hin : In (RuleTree.annotate node c) (RuleTree.all_criteria root)).
  { unfold RuleTree.all_criteria. apply in_flat_map. exists node.
    split; [exact Hnode | apply in_map; exact Hc]. }
  apply in_with_name in Hin. rewrite annotate_name in Hin.
  rewrite find_flat.
  destruct (RuleTree.with_name (RuleTree.name_of c) (RuleTree.all_criteria root))
    as [| e es] eqn:E; [destruct Hin |].
  exists (e :: es), nm. cbn [RuleTree.bucket].
  repeat split; assumption.
Qed.

Lemma flatten_behaviors_witness :
  exists info,
    RuleInfo.init Sample.rules = Ok info
    /\ Py.find (JStr "origin") (RuleInfo.behaviors info)
       = Some [Sample.origin_a; Sample.origin_b]
    /\ Py.find (JStr "caching") (RuleInfo.behaviors info)
       = Some [Sample.caching].
Proof.
  destruct (flatten_behaviors Sample.rules Sample.root eq_refl eq_refl)
    as [_ [info [Hinit [Hfind _]]]].
  exists info. split; [exact Hinit |].
  rewrite !Hfind. split; reflexivity.
Defined.

Lemma flatten_criteria_witness :
  exists info,
    RuleInfo.init Sample.rules = Ok info
    /\ Py.find (JStr "fileExtension") (RuleInfo.criteria info)
       = Some [JObj [("name", JStr "fileExtension");
                     ("options", JObj [("values", JArr [JStr "css"; JStr "js"])]);
                     ("rulename", JStr "Static")]].
Proof.
  destruct (flatten_criteria Sample.rules Sample.root eq_refl eq_refl)
    as [info [Hinit [Hfind _]]].
  exists info. split; [exact Hinit |].
  rewrite Hfind. reflexivity.
Defined.

(** ** The origins of a property *)

Section Origins.
Variable repr : json -> string.
Variable urlencode : list (string * json) -> string.
Variable urljoin : string -> string -> string.
Variable session_get : string -> result json.
Variable session_post : string -> json -> result json.
Variable self : AkamaiBase.t.

Local Abbreviation propertybyhostname :=
  (AkamaiDiag.propertybyhostname urlencode urljoin session_post self).
Local Abbreviation propertyrules :=
  (AkamaiDiag.propertyrules repr urlencode urljoin session_get session_post
                            self).
Local Abbreviation origins :=
  (AkamaiDiag.origins repr urlencode urljoin session_get session_post self).

Lemma origins_of_rules (hostname : string) (rules root : json) :
  propertyrules hostname = Ok rules ->
  Py.getitem rules "rules" = Ok root ->
  RuleTree.wf root = true ->
  origins hostname
  = match RuleTree.with_name "origin" (RuleTree.all_behaviors root) with
    | [] => Raise (KeyError (JStr "origin"))
    | entries => Ok (JArr entries)
    end.
Proof.
  intros Hrules Hget Hwf. unfold AkamaiDiag.origins.
  rewrite Hrules. cbn [bind].
  rewrite (getitem_truthy rules "rules" root Hget).
  rewrite (init_flatten rules root Hget Hwf). cbn [bind].
  unfold RuleInfo.behaviors, Py.dict_getitem.
  cbn [RuleInfo._behaviors Py.hashable].
  rewrite find_flat.
  destruct (RuleTree.with_name "origin" (RuleTree.all_behaviors root));
    reflexivity.
Qed.

(** Claim C10.  When the rule tree of the hostname is retrieved, is
    well-formed and has no behavior named [origin] in any node,
    [origins] raises the key lookup failure for [origin]; it returns
    neither [None] nor an empty list. *)
Theorem origins_without_origin (hostname : string) (rules root : json) :
  propertyrules hostname = Ok rules ->
  Py.getitem rules "rules" = Ok root ->
  RuleTree.wf root = true ->
  RuleTree.with_name "origin" (RuleTree.all_behaviors root) = [] ->
  origins hostname = Raise (KeyError (JStr "origin")).
Proof.
  intros Hrules Hget Hwf Hnone.
  rewrite (origins_of_rules hostname rules root Hrules Hget Hwf), Hnone.
  reflexivity.
Qed.

Lemma format_field_str (key : string) (kw : json) (s : string) :
  Py.getitem kw key = Ok (JStr s) ->
  Fmt.format_field repr key kw = Ok s.
Proof.
  intros H. destruct kw; try discriminate H.
  unfold Fmt.format_field. rewrite H. reflexivity.
Qed.

(** Claim C6.  For a rule tree whose behaviors named [origin] are, in
    document order, one of type CUSTOMER with a host name and one of type
    NET_STORAGE with a download domain name, the origins command prints
    exactly these two names, in that order, and nothing else. *)
Theorem origins_two_lines (hostname : string) (rules root : json)
  (b1 b2 o1 o2 ns : json) (host domain : string) :
  propertyrules hostname = Ok rules ->
  Py.getitem rules "rules" = Ok root ->
  RuleTree.wf root = true ->
  RuleTree.with_name "origin" (RuleTree.all_behaviors root) = [b1; b2] ->
  Py.getitem b1 "options" = Ok o1 ->
  Py.getitem o1 "originType" = Ok (JStr "CUSTOMER") ->
  Py.getitem o1 "hostname" = Ok (JStr host) ->
  Py.getitem b2 "options" = Ok o2 ->
  Py.getitem o2 "originType" = Ok (JStr "NET_STORAGE") ->
  Py.getitem o2 "netStorage" = Ok ns ->
  Py.getitem ns "downloadDomainName" = Ok (JStr domain) ->
  Main.origins_command repr (origins hostname)
  = mk_outcome [host; domain] [] None.
Proof.
  intros Hrules Hget Hwf Hor Hb1 Ht1 Hh Hb2 Ht2 Hns Hd.
  rewrite (origins_of_rules hostname rules root Hrules Hget Hwf), Hor.
  unfold Main.origins_command. cbn [Py.iter print_each].
  unfold Main.origins_line.
  rewrite Hb1. cbn [bind]. rewrite Ht1. cbn [bind Py.eq_str].
  replace (String.eqb "CUSTOMER" "CUSTOMER") with true by reflexivity.
  rewrite (format_field_str "hostname" o1 host Hh). cbn [bind].
  rewrite Hb2. cbn [bind]. rewrite Ht2. cbn [bind Py.eq_str].
  replace (String.eqb "NET_STORAGE" "CUSTOMER") with false by reflexivity.
  replace (String.eqb "NET_STORAGE" "NET_STORAGE") with true by reflexivity.
  rewrite Hns. cbn [bind].
  rewrite (format_field_str "downloadDomainName" ns domain Hd). cbn [bind].
  reflexivity.
Qed.

Lemma first_active_none (xs : list json) :
  forallb AkamaiDiag.inactive xs = true ->
  AkamaiDiag.first_active xs = Ok JNull.
Proof.
  induction xs as [| x xs IH]; [reflexivity |].
  cbn [forallb AkamaiDiag.first_active]. intros H.
  apply andb_true_iff in H. destruct H as [Hx Hxs].
  unfold AkamaiDiag.inactive in Hx.
  destruct (Py.getitem x "productionStatus") as [status | e];
    [| discriminate Hx].
  cbn [bind]. destruct (Py.eq_str status "ACTIVE"); [discriminate Hx |].
  exact (IH Hxs).
Qed.

(** Claim C7.  When the search answers with items none of which has the
    production status ACTIVE, [propertybyhostname], [propertyrules] and
    [origins] all return [None], nothing of the items being kept, and the
    origins command prints the one line "Problem, hostname incorrect or
    issue with accessing the API" to standard error and nothing to
    standard output. *)
Theorem lookup_without_active (hostname : string)
  (response versions items : json) (xs : list json) :
  session_post
    (AkamaiBase._apipath urlencode urljoin self
                         "/papi/v1/search/find-by-value" None)
    (JObj [("hostname", JStr hostname)]) = Ok response ->
  Py.getitem response "versions" = Ok versions ->
  Py.getitem versions "items" = Ok items ->
  Py.iter items = Ok xs ->
  forallb AkamaiDiag.inactive xs = true ->
  propertybyhostname hostname = Ok JNull
  /\ propertyrules hostname = Ok JNull
  /\ origins hostname = Ok JNull
  /\ Main.origins_command repr (origins hostname)
     = mk_outcome
         []
         ["Problem, hostname incorrect or issue with accessing the API"]
         None.
Proof.
  intros Hpost Hv Hi Hxs Hin.
  assert (H1 : propertybyhostname hostname = Ok JNull).
  { unfold AkamaiDiag.propertybyhostname.
    rewrite Hpost. cbn [bind]. rewrite Hv. cbn [bind].
    rewrite Hi. cbn [bind]. rewrite Hxs. cbn [bind].
    exact (first_active_none xs Hin). }
  assert (H2 : propertyrules hostname = Ok JNull).
  { unfold AkamaiDiag.propertyrules. rewrite H1. reflexivity. }
  assert (H3 : origins hostname = Ok JNull).
  { unfold AkamaiDiag.origins. rewrite H2. reflexivity. }
  repeat split; try assumption.
  rewrite H3. reflexivity.
Qed.

End Origins.

Lemma origins_without_origin_witness :
  AkamaiDiag.origins Sample.repr Sample.urlencode Sample.urljoin
    (Sample.answer Sample.bare_rules) (Sample.answer_post Sample.found)
    Sample.akadiag "www.example.com"
  = Raise (KeyError (JStr "origin")).
Proof.
  apply (origins_without_origin Sample.repr Sample.urlencode Sample.urljoin
           (Sample.answer Sample.bare_rules) (Sample.answer_post Sample.found)
           Sample.akadiag "www.example.com" Sample.bare_rules Sample.bare_root);
    reflexivity.
Defined.

Lemma origins_two_lines_witness :
  Main.origins_command Sample.repr
    (AkamaiDiag.origins Sample.repr Sample.urlencode Sample.urljoin
       (Sample.answer Sample.rules) (Sample.answer_post Sample.found)
       Sample.akadiag "www.example.com")
  = mk_outcome ["a.example.com"; "b.example.com.download"] [] None.
Proof.
  eapply (origins_two_lines Sample.repr Sample.urlencode Sample.urljoin
            (Sample.answer Sample.rules) (Sample.answer_post Sample.found)
            Sample.akadiag "www.example.com" Sample.rules Sample.root
            Sample.origin_a Sample.origin_b);
    reflexivity.
Defined.

Lemma lookup_without_active_witness :
  AkamaiDiag.origins Sample.repr Sample.urlencode Sample.urljoin
    (Sample.answer Sample.rules) (Sample.answer_post Sample.not_found)
    Sample.akadiag "www.example.com"
  = Ok JNull
  /\ Main.origins_command Sample.repr
       (AkamaiDiag.origins Sample.repr Sample.urlencode Sample.urljoin
          (Sample.answer Sample.rules) (Sample.answer_post Sample.not_found)
          Sample.akadiag "www.example.com")
     = mk_outcome
         []
         ["Problem, hostname incorrect or issue with accessing the API"]
         None.
Proof.
  destruct (lookup_without_active Sample.repr Sample.urlencode Sample.urljoin
              (Sample.answer Sample.rules) (Sample.answer_post Sample.not_found)
              Sample.akadiag "www.example.com" Sample.not_found
              (JObj [("items", JArr [Sample.version "INACTIVE" 2;
                                     Sample.version "DEACTIVATED" 1])])
              (JArr [Sample.version "INACTIVE" 2;
                     Sample.version "DEACTIVATED" 1])
              [Sample.version "INACTIVE" 2; Sample.version "DEACTIVATED" 1]
              eq_refl eq_refl eq_refl eq_refl eq_refl)
    as [_ [_ [H3 H4]]].
  split; [exact H3 | exact H4].
Defined.

(** ** The error reference *)

Lemma has_char (c : ascii) (s : string) :
  Py.is_infix (String c EmptyString) s
  = match s with
    | EmptyString => false
    | String a rest =>
        Ascii.eqb c a || Py.is_infix (String c EmptyString) rest
    end.
Proof.
  destruct s as [| a rest]; cbn [Py.is_infix Py.is_prefix]; [reflexivity |].
  rewrite andb_true_r. reflexivity.
Qed.

Lemma has_char_app (c : ascii) (p q : string) :
  Py.is_infix (String c EmptyString) (p ++ String c q) = true.
Proof.
  induction p as [| a p IH]; rewrite has_char; cbn [String.append].
  - rewrite Ascii.eqb_refl. reflexivity.
  - rewrite IH. apply orb_true_r.
Qed.

Lemma before_first_split (c : ascii) (s : string) :
  fst (Text.split_aux c s) = Text.before_first c s.
Proof.
  induction s as [| a s IH]; cbn [Text.split_aux Text.before_first];
    [reflexivity |].
  destruct (Text.split_aux c s) as [h t]. cbn [fst] in IH.
  destruct (Ascii.eqb a c); cbn [fst]; [reflexivity | rewrite IH; reflexivity].
Qed.

Lemma before_first_all (c : ascii) (s : string) :
  Py.is_infix (String c EmptyString) s = false -> Text.before_first c s = s.
Proof.
  induction s as [| a s IH]; [reflexivity |].
  rewrite has_char. intros H. apply orb_false_iff in H. destruct H as [Ha Hs].
  cbn [Text.before_first]. rewrite Ascii.eqb_sym, Ha, (IH Hs). reflexivity.
Qed.

Lemma split_at_first (c : ascii) (p q : string) :
  Py.is_infix (String c EmptyString) p = false ->
  Text.split c (p ++ String c q) = p :: Text.split c q.
Proof.
  unfold Text.split. induction p as [| a p IH]; intros H;
    cbn [String.append Text.split_aux].
  - rewrite Ascii.eqb_refl. destruct (Text.split_aux c q). reflexivity.
  - rewrite has_char in H. apply orb_false_iff in H. destruct H as [Ha Hp].
    specialize (IH Hp).
    destruct (Text.split_aux c (p ++ String c q)) as [h t].
    rewrite Ascii.eqb_sym, Ha.
    destruct (Text.split_aux c q) as [h' t'].
    injection IH as -> ->. reflexivity.
Qed.

Section Reference.
Variable urlencode : list (string * json) -> string.
Variable urljoin : string -> string -> string.
Variable session_get : string -> result json.
Variable charref_sub : string -> string.
Variable self : AkamaiBase.t.

(** Claim C5, as the code has it.  The [#] is looked for in the reference
    after [html.unescape]; when the unescaped text is [p#q] with no [#]
    in [p], the error code is [q] up to its next [#], which is all of
    [q] when [q] holds no further [#], and that code is what goes into the
    path of the translated-error request. *)
Theorem reference_code_segment (errorCode p q : string) :
  AkamaiDiag.html_unescape charref_sub errorCode = (p ++ String "#" q)%string ->
  Py.is_infix "#" p = false ->
  AkamaiDiag.reference_code charref_sub errorCode
  = Ok (Text.before_first "#" q)
  /\ (Py.is_infix "#" q = false -> Text.before_first "#" q = q)
  /\ AkamaiDiag.reference urlencode urljoin session_get charref_sub self
       errorCode
     = session_get
         (AkamaiBase._apipath urlencode urljoin self
            ("/diagnostic-tools/v2/errors/" ++ Text.before_first "#" q
               ++ "/translated-error")%string
            None).
Proof.
  intros Hun Hp.
  assert (Hcode : AkamaiDiag.reference_code charref_sub errorCode
                  = Ok (Text.before_first "#" q)).
  { unfold AkamaiDiag.reference_code. rewrite Hun.
    rewrite (has_char_app "#" p q), (split_at_first "#" p q Hp).
    unfold Text.split, Text.item.
    rewrite <- before_first_split.
    destruct (Text.split_aux "#" q). reflexivity. }
  split; [exact Hcode |].
  split; [apply before_first_all |].
  unfold AkamaiDiag.reference. rewrite Hcode. reflexivity.
Qed.

End Reference.

Lemma reference_code_segment_witness :
  AkamaiDiag.reference_code Sample.no_charref "Error#E_CONNECT_TIMEOUT"
  = Ok "E_CONNECT_TIMEOUT".
Proof.
  destruct (reference_code_segment Sample.urlencode Sample.urljoin
              (Sample.answer JNull) Sample.no_charref Sample.akadiag
              "Error#E_CONNECT_TIMEOUT" "Error" "E_CONNECT_TIMEOUT"
              eq_refl eq_refl) as [H _].
  exact H.
Defined.

(** Claim C5 as it is stated fails when the reference has a second [#]:
    the code is cut at it, so it is not the text after the [#]. *)
Lemma reference_code_cut_at_second_hash :
  Py.is_infix "#" "Error#A#B" = true
  /\ Text.after_first "#" "Error#A#B" = "A#B"
  /\ forall charref_sub,
       AkamaiDiag.reference_code charref_sub "Error#A#B" = Ok "A".
Proof. repeat split. Qed.

(** ** The fallback of urldebug and the cache *)

Lemma urldebug_never_raises_aux (repr json_dumps : json -> string)
  (result : json) :
  raised (Main.urldebug_command repr json_dumps result) = None.
Proof.
  unfold Main.urldebug_command.
  destruct (Main.urldebug_listing repr result) as [out [e |]]; reflexivity.
Qed.

Section Urldebug.
Variable repr : json -> string.
Variable json_dumps : json -> string.

(** Claim C8.  Whenever listing the [urlDebug.httpResponse] entries of the
    answer raises an exception, of whatever kind, the urldebug command
    ends normally and the raw JSON of the answer is the last thing it
    prints, after the lines printed before the exception. *)
Theorem urldebug_fallback (result : json) (out : list string) (e : exn) :
  Main.urldebug_listing repr result = (out, Some e) ->
  Main.urldebug_command repr json_dumps result
  = mk_outcome (out ++ [json_dumps result]) [] None.
Proof.
  intros H. unfold Main.urldebug_command. rewrite H. reflexivity.
Qed.

End Urldebug.

Lemma urldebug_fallback_witness :
  Main.urldebug_command Sample.repr Sample.json_dumps
    (JObj [("urlDebug",
            JObj [("httpResponse",
                   JArr [JObj [("name", JStr "Status"); ("value", JInt 200)];
                         JObj [("name", JStr "CP code")]])])])
  = mk_outcome ["Status                : <value>"; "<json>"] [] None.
Proof.
  apply (urldebug_fallback Sample.repr Sample.json_dumps _
           ["Status                : <value>"]
           (KeyError (JStr "value"))).
  reflexivity.
Defined.

Section Cache.
Variable open_read : string -> result string.
Variable json_load : string -> result json.

(** Claim C9.  For every cache name whose file does not exist, so that
    opening it raises the file-not-found error, [load] returns [None]
    and raises nothing. *)
Theorem load_missing_file (self : CacheControl.t) (name extension : string) :
  open_read (CacheControl.cachename self name extension)
  = Raise FileNotFoundError ->
  CacheControl.load open_read json_load self name extension = Ok JNull.
Proof.
  intros H. unfold CacheControl.load. rewrite H. reflexivity.
Qed.

End Cache.

Lemma load_missing_file_witness :
  CacheControl.load Sample.missing_file Sample.no_json
    (CacheControl.init Sample.no_charref Sample.no_charref "~/.cache/akamai/")
    "properties/www.example.com" ".json"
  = Ok JNull.
Proof.
  apply (load_missing_file Sample.missing_file Sample.no_json).
  reflexivity.
Defined.

(** ** Further properties of the script *)

Section Search.
Variable repr : json -> string.


(** An origin whose type is neither CUSTOMER nor NET_STORAGE prints no
  line and raises nothing. *)
Theorem origins_line_other_type (x o originType : json) :
Py.getitem x "options" = Ok o ->
Py.getitem o "originType" = Ok originType ->
Py.eq_str originType "CUSTOMER" = false ->
Py.eq_str originType "NET_STORAGE" = false ->
Main.origins_line repr x = Ok None.
Proof.
intros Hx Ho Hc Hn. unfold Main.origins_line.
rewrite Hx. cbn [bind]. rewrite Ho. cbn [bind]. rewrite Hc.
cbn [bind]. rewrite Hn. reflexivity.
Qed.

End Search.


Lemma origins_line_other_type_witness :
  Main.origins_line Sample.repr
    (JObj [("name", JStr "origin");
           ("options", JObj [("originType", JStr "MEDIA_SERVICE_LIVE")])])
  = Ok None.
Proof.
  apply (origins_line_other_type Sample.repr _
           (JObj [("originType", JStr "MEDIA_SERVICE_LIVE")])
           (JStr "MEDIA_SERVICE_LIVE"));
    reflexivity.
Defined.



Section CacheRead.
Variable open_read : string -> result string.
Variable json_load : string -> result json.

(** When the cache file opens, [load] returns what [json.load] makes of it,
  an exception of [json.load] other than file-not-found included; and an
  exception of [open] other than file-not-found is not caught. *)
Theorem load_existing_file (self : CacheControl.t) (name extension : string) :
(forall text,
    open_read (CacheControl.cachename self name extension) = Ok text ->
    json_load text <> Raise FileNotFoundError ->
    CacheControl.load open_read json_load self name extension
    = json_load text)
/\ (forall e,
       open_read (CacheControl.cachename self name extension) = Raise e ->
       e <> FileNotFoundError ->
       CacheControl.load open_read json_load self name extension = Raise e).
Proof.
unfold CacheControl.load. split.
- intros text Hopen Hload. rewrite Hopen. cbn [bind].
  destruct (json_load text) as [data | []]; try reflexivity.
  exfalso. apply Hload. reflexivity.
- intros e Hopen He. rewrite Hopen. cbn [bind].
  destruct e; try reflexivity. exfalso. apply He. reflexivity.
Qed.

End CacheRead.

Lemma load_existing_file_witness :
  CacheControl.load (fun _ => Ok "{}"%string) (fun _ => Ok (JObj []))
    (CacheControl.mk "/tmp") "x" ".json"
  = Ok (JObj [])
  /\ CacheControl.load (fun _ => Raise (OtherError "PermissionError"))
       Sample.no_json (CacheControl.mk "/tmp") "x" ".json"
     = Raise (OtherError "PermissionError").
Proof.
  split.
  - apply (proj1 (load_existing_file (fun _ => Ok "{}"%string)
                    (fun _ => Ok (JObj [])) (CacheControl.mk "/tmp") "x" ".json")
             "{}"%string); [reflexivity | discriminate].
  - apply (proj2 (load_existing_file
                    (fun _ => Raise (OtherError "PermissionError"))
                    Sample.no_json (CacheControl.mk "/tmp") "x" ".json"));
      [reflexivity | discriminate].
Defined.

(** ** The path of a request *)

Lemma assoc_set_same (k : string) (v : json) (fields : list (string * json)) :
  Py.assoc k (Py.assoc_set k v fields) = Some v.
Proof.
  induction fields as [| [k0 v0] rest IH]; cbn [Py.assoc_set Py.assoc].
  - rewrite String.eqb_refl. reflexivity.
  - destruct (String.eqb k k0) eqn:E; cbn [Py.assoc]; rewrite E.
    + reflexivity.
    + exact IH.
Qed.

Lemma assoc_set_cons (k : string) (v : json) (fields : list (string * json)) :
  exists p ps, Py.assoc_set k v fields = p :: ps.
Proof.
  destruct fields as [| [k0 v0] rest]; cbn [Py.assoc_set].
  - eexists. eexists. reflexivity.
  - destruct (String.eqb k k0); eexists; eexists; reflexivity.
Qed.

Section Path.
Variable urlencode : list (string * json) -> string.
Variable urljoin : string -> string -> string.

(** No query string is added when the end point already holds a question
  mark, whatever the parameters and the account are, nor when there is
  neither an account nor a parameter: the path is the end point joined to
  the base url. *)
Theorem apipath_without_query (self : AkamaiBase.t) (endpoint : string)
(parameters : option (list (string * json))) :
Py.is_infix "?" endpoint = true \/
(AkamaiBase.account_given self = None /\
 (parameters = None \/ parameters = Some [])) ->
AkamaiBase._apipath urlencode urljoin self endpoint parameters
= urljoin (AkamaiBase.baseurl self) endpoint.
Proof.
unfold AkamaiBase._apipath. intros [Hq | [Hacc Hpar]].
- rewrite Hq. cbn [negb].
  match goal with
  | |- urljoin _ (match ?x with _ => _ end) = _ =>
      destruct x as [[| ? ?] |]; reflexivity
  end.
- rewrite Hacc. destruct Hpar as [-> | ->]; reflexivity.
Qed.

(** With an account and an end point without a question mark, the query
  string encodes the caller's parameters with [accountSwitchKey] set to
  the account: a value the caller gave for that key is replaced, every
  other parameter is kept. *)
Theorem apipath_account_switch (self : AkamaiBase.t) (account endpoint : string)
(parameters : option (list (string * json))) :
AkamaiBase.account_given self = Some account ->
Py.is_infix "?" endpoint = false ->
exists sent,
  AkamaiBase._apipath urlencode urljoin self endpoint parameters
  = urljoin (AkamaiBase.baseurl self)
            (endpoint ++ "?" ++ urlencode sent)%string
  /\ Py.assoc "accountSwitchKey" sent = Some (JStr account)
  /\ forall k, String.eqb k "accountSwitchKey" = false ->
       Py.assoc k sent
       = Py.assoc k match parameters with Some ps => ps | None => [] end.
Proof.
intros Hacc Hq. unfold AkamaiBase._apipath. rewrite Hacc, Hq. cbn [negb].
match goal with
| |- context [Py.assoc_set _ _ ?g] => set (given := g)
end.
exists (Py.assoc_set "accountSwitchKey" (JStr account) given).
destruct (assoc_set_cons "accountSwitchKey" (JStr account) given)
  as [p [ps Hps]].
split; [rewrite Hps; reflexivity |].
split; [apply assoc_set_same |].
intros k Hk. rewrite (assoc_set_other k "accountSwitchKey" _ given Hk).
subst given. destruct parameters as [[| p0 ps0] |]; reflexivity.
Qed.

End Path.

Lemma apipath_without_query_witness :
  AkamaiBase._apipath Sample.urlencode Sample.urljoin
    (AkamaiBase.init "host" (Some "B-3-ABC"%string))
    "/diagnostic-tools/v2/errors/a?b/translated-error"
    (Some [("url", JStr "https://www.example.com/")])
  = "https://host/diagnostic-tools/v2/errors/a?b/translated-error".
Proof.
  apply (apipath_without_query Sample.urlencode Sample.urljoin).
  left. reflexivity.
Defined.

Lemma apipath_account_switch_witness :
  exists sent,
    AkamaiBase._apipath Sample.urlencode Sample.urljoin
      (AkamaiBase.init "host" (Some "B-3-ABC"%string))
      "/diagnostic-tools/v2/url-debug"
      (Some [("url", JStr "https://www.example.com/")])
    = ("https://host/diagnostic-tools/v2/url-debug?"
         ++ Sample.urlencode sent)%string
    /\ Py.assoc "accountSwitchKey" sent = Some (JStr "B-3-ABC")
    /\ Py.assoc "url" sent = Some (JStr "https://www.example.com/").
Proof.
  destruct (apipath_account_switch Sample.urlencode Sample.urljoin
              (AkamaiBase.init "host" (Some "B-3-ABC"%string)) "B-3-ABC"
              "/diagnostic-tools/v2/url-debug"
              (Some [("url", JStr "https://www.example.com/")])
              eq_refl eq_refl) as [sent [Hpath [Hkey Hrest]]].
  exists sent. split; [exact Hpath |]. split; [exact Hkey |].
  rewrite (Hrest "url" eq_refl). reflexivity.
Defined.

(** ** The error code of a reference *)

Lemma has_char_split (c : ascii) (s : string) :
  Py.is_infix (String c EmptyString) s = true ->
  exists p q,
    s = (p ++ String c q)%string
    /\ Py.is_infix (String c EmptyString) p = false.
Proof.
  induction s as [| a s IH]; rewrite has_char; [discriminate |].
  destruct (Ascii.eqb c a) eqn:E.
  - intros _. apply Ascii.eqb_eq in E. subst a.
    exists EmptyString, s. split; reflexivity.
  - cbn [orb]. intros H. destruct (IH H) as [p [q [-> Hp]]].
    exists (String a p), q. split; [reflexivity |].
    rewrite has_char, E, Hp. reflexivity.
Qed.

Lemma before_first_clean (c : ascii) (s : string) :
  Py.is_infix (String c EmptyString) (Text.before_first c s) = false.
Proof.
  induction s as [| a s IH]; [reflexivity |].
  cbn [Text.before_first]. destruct (Ascii.eqb a c) eqn:E; [reflexivity |].
  rewrite has_char, Ascii.eqb_sym, E, IH. reflexivity.
Qed.

(** [reference] never fails on its index [1]: it always has an error code
    to send.  Without a [#] in the unescaped reference the code is the whole
    unescaped reference; with one, the code holds no [#] itself. *)
Theorem reference_code_never_raises (charref_sub : string -> string)
  (errorCode : string) :
  exists code,
    AkamaiDiag.reference_code charref_sub errorCode = Ok code
    /\ (Py.is_infix "#" (AkamaiDiag.html_unescape charref_sub errorCode) = false ->
        code = AkamaiDiag.html_unescape charref_sub errorCode)
    /\ (Py.is_infix "#" (AkamaiDiag.html_unescape charref_sub errorCode) = true ->
        Py.is_infix "#" code = false).
Proof.
  unfold AkamaiDiag.reference_code.
  destruct (Py.is_infix "#" (AkamaiDiag.html_unescape charref_sub errorCode))
    eqn:E.
  - destruct (has_char_split "#" _ E) as [p [q [Hs Hp]]].
    rewrite Hs, (split_at_first "#" p q Hp).
    unfold Text.split, Text.item.
    pose proof (before_first_split "#" q) as Hb.
    destruct (Text.split_aux "#" q) as [h t]. cbn [fst] in Hb. subst h.
    cbn [nth_error]. exists (Text.before_first "#" q).
    split; [reflexivity |]. split; [discriminate |].
    intros _. apply before_first_clean.
  - eexists. split; [reflexivity |]. split; [reflexivity | discriminate].
Qed.

(** ** The search for the active version *)

Lemma eq_str_true (v : json) (s : string) :
  Py.eq_str v s = true -> v = JStr s.
Proof.
  destruct v; cbn [Py.eq_str]; try discriminate.
  intros H. apply String.eqb_eq in H. subst. reflexivity.
Qed.

Lemma first_active_result (xs : list json) (x : json) :
  AkamaiDiag.first_active xs = Ok x ->
  x = JNull \/ Py.getitem x "productionStatus" = Ok (JStr "ACTIVE").
Proof.
  induction xs as [| y xs IH]; cbn [AkamaiDiag.first_active].
  - intros H. injection H as <-. left. reflexivity.
  - destruct (Py.getitem y "productionStatus") as [status | e] eqn:E;
      cbn [bind]; [| discriminate].
    destruct (Py.eq_str status "ACTIVE") eqn:Es; [| exact IH].
    intros H. injection H as <-. right.
    rewrite E, (eq_str_true status "ACTIVE" Es). reflexivity.
Qed.

Section SearchResult.
Variable urlencode : list (string * json) -> string.
Variable urljoin : string -> string -> string.
Variable session_post : string -> json -> result json.
Variable self : AkamaiBase.t.

(** Whatever the search answers, [propertybyhostname] returns either
  [None] or an item whose production status is ACTIVE; it never returns a
  version of another status. *)
Theorem propertybyhostname_active_or_none (hostname : string) (x : json) :
AkamaiDiag.propertybyhostname urlencode urljoin session_post self hostname
= Ok x ->
x = JNull \/ Py.getitem x "productionStatus" = Ok (JStr "ACTIVE").
Proof.
unfold AkamaiDiag.propertybyhostname.
destruct (session_post _ _) as [response | e]; cbn [bind]; [| discriminate].
destruct (Py.getitem response "versions") as [versions | e]; cbn [bind];
  [| discriminate].
destruct (Py.getitem versions "items") as [items | e]; cbn [bind];
  [| discriminate].
destruct (Py.iter items) as [xs | e]; cbn [bind]; [| discriminate].
apply first_active_result.
Qed.

End SearchResult.

Lemma propertybyhostname_active_or_none_witness :
  Sample.version "ACTIVE" 3 = JNull
  \/ Py.getitem (Sample.version "ACTIVE" 3) "productionStatus"
     = Ok (JStr "ACTIVE").
Proof.
  apply (propertybyhostname_active_or_none Sample.urlencode Sample.urljoin
           (Sample.answer_post Sample.found) Sample.akadiag "www.example.com").
  reflexivity.
Defined.

(** An item without a production status that comes before any ACTIVE item
    makes the search raise, even when an ACTIVE item follows it. *)
Theorem first_active_missing_status (before after : list json) (x : json) :
  forallb AkamaiDiag.inactive before = true ->
  RuleTree.has_field "productionStatus" x = false ->
  exists e, AkamaiDiag.first_active (before ++ x :: after) = Raise e.
Proof.
  intros Hb Hx. induction before as [| y before IH].
  - cbn [app AkamaiDiag.first_active].
    unfold RuleTree.has_field in Hx. unfold Py.getitem.
    destruct x; try (eexists; reflexivity).
    destruct (Py.assoc "productionStatus" fields); [discriminate Hx |].
    eexists. reflexivity.
  - cbn [forallb] in Hb. apply andb_true_iff in Hb. destruct Hb as [Hy Hb].
    cbn [app AkamaiDiag.first_active]. unfold AkamaiDiag.inactive in Hy.
    destruct (Py.getitem y "productionStatus") as [status | e];
      [| discriminate Hy].
    cbn [bind]. destruct (Py.eq_str status "ACTIVE"); [discriminate Hy |].
    exact (IH Hb).
Qed.

Lemma first_active_missing_status_witness :
  exists e,
    AkamaiDiag.first_active
      ([Sample.version "INACTIVE" 2]
         ++ JObj [("propertyId", JStr "prp_1")]
         :: [Sample.version "ACTIVE" 3])
    = Raise e.
Proof. apply first_active_missing_status; reflexivity. Defined.

(** ** Invariants of the flattened index *)

Lemma for_each_invariant {A S : Type} (P : S -> Prop)
  (f : A -> S -> result S) (xs : list A) :
  (forall x st st', P st -> f x st = Ok st' -> P st') ->
  forall st st', P st -> for_each xs f st = Ok st' -> P st'.
Proof.
  intros Hf. induction xs as [| x xs IH]; intros st st' Hst; cbn [for_each].
  - intros H. injection H as <-. exact Hst.
  - destruct (f x st) as [st1 | e] eqn:E; cbn [bind]; [| discriminate].
    apply IH. exact (Hf x st st1 Hst E).
Qed.

Lemma store_filled (k : json) (b : list json) (d : Py.buckets) :
  Keys.filled d -> b <> [] -> Keys.filled (Py.store k b d).
Proof.
  unfold Keys.filled. intros Hd Hb.
  induction d as [| [k' b'] rest IH]; cbn [Py.store].
  - constructor; [exact Hb | constructor].
  - inversion Hd as [| ? ? Hb' Hrest]; subst.
    destruct (Py.key_eq k k'); constructor; auto.
Qed.

Lemma store_absent (k : json) (b : list json) (d : Py.buckets) :
  Py.find k d = None -> Py.store k b d = d ++ [(k, b)].
Proof.
  induction d as [| [k' b'] rest IH]; cbn [Py.find Py.store app];
    [reflexivity |].
  destruct (Py.key_eq k k'); [discriminate |].
  intros H. rewrite (IH H). reflexivity.
Qed.

Lemma find_last (k : json) (b : list json) (d : Py.buckets) :
  Py.find k d = None ->
  Py.find k (d ++ [(k, b)]) = if Py.key_eq k k then Some b else None.
Proof.
  induction d as [| [k' b'] rest IH]; cbn [Py.find app]; [reflexivity |].
  destruct (Py.key_eq k k'); [discriminate | exact IH].
Qed.

Lemma store_last (k : json) (b c : list json) (d : Py.buckets) :
  Py.find k d = None -> Py.key_eq k k = true ->
  Py.store k c (d ++ [(k, b)]) = d ++ [(k, c)].
Proof.
  intros Hd Hk. induction d as [| [k' b'] rest IH]; cbn [Py.store app].
  - rewrite Hk. reflexivity.
  - cbn [Py.find] in Hd. destruct (Py.key_eq k k'); [discriminate |].
    rewrite (IH Hd). reflexivity.
Qed.

(** Making the bucket and appending to it leaves no bucket empty. *)
Lemma append_filled (d d' : Py.buckets) (k x : json) :
  Keys.filled d ->
  (d1 <- RuleInfo.ensure_bucket d k ;; Py.dict_append d1 k x) = Ok d' ->
  Keys.filled d'.
Proof.
  intros Hd. unfold RuleInfo.ensure_bucket, Py.dict_contains, Py.dict_append,
    Py.dict_getitem, Py.dict_setitem.
  destruct (Py.hashable k); cbn [bind]; [| discriminate].
  destruct (Py.find k d) as [b |] eqn:E; cbn [bind].
  - rewrite E. cbn [bind]. intros H. injection H as <-.
    apply store_filled; [exact Hd |]. destruct b; discriminate.
  - rewrite (store_absent k [] d E), (find_last k [] d E).
    destruct (Py.key_eq k k) eqn:Ek; cbn [bind]; [| discriminate].
    rewrite (store_last k [] ([] ++ [x]) d E Ek).
    intros H. injection H as <-.
    unfold Keys.filled in *. apply Forall_app. split; [exact Hd |].
    constructor; [discriminate | constructor].
Qed.

Lemma add_behavior_filled (b : json) (self self' : RuleInfo.t) :
  Keys.both_filled self -> RuleInfo.add_behavior b self = Ok self' ->
  Keys.both_filled self'.
Proof.
  intros [Hb Hc]. unfold RuleInfo.add_behavior.
  destruct (Py.getitem b "name") as [name | e]; cbn [bind]; [| discriminate].
  pose proof (append_filled (RuleInfo._behaviors self)) as Happ.
  specialize (fun d' => Happ d' name b Hb).
  destruct (RuleInfo.ensure_bucket (RuleInfo._behaviors self) name)
    as [d1 | e]; cbn [bind] in *; [| discriminate].
  destruct (Py.dict_append d1 name b) as [d2 | e]; cbn [bind];
    [| discriminate].
  intros H. injection H as <-. split; [exact (Happ d2 eq_refl) | exact Hc].
Qed.

Lemma add_criterion_filled (rule c : json) (self self' : RuleInfo.t) :
  Keys.both_filled self -> RuleInfo.add_criterion rule c self = Ok self' ->
  Keys.both_filled self'.
Proof.
  intros [Hb Hc]. unfold RuleInfo.add_criterion.
  destruct (Py.getitem c "name") as [name | e] eqn:En; cbn [bind];
    [| discriminate].
  destruct (RuleInfo.ensure_bucket (RuleInfo._criteria self) name)
    as [d1 | e] eqn:Ed; cbn [bind]; [| discriminate].
  destruct (Py.getitem rule "name") as [rulename | e]; cbn [bind];
    [| discriminate].
  destruct c as [| | | | | | cf]; try discriminate En.
  cbn [Py.setitem bind]. unfold Py.getitem at 1.
  rewrite (assoc_set_other "name" "rulename" rulename cf eq_refl).
  unfold Py.getitem in En. rewrite En. cbn [bind].
  destruct (Py.dict_append d1 name _) as [d2 | e] eqn:Ea; cbn [bind];
    [| discriminate].
  intros H. injection H as <-. split; [exact Hb |].
  apply (append_filled (RuleInfo._criteria self) d2 name
           (JObj (Py.assoc_set "rulename" rulename cf)) Hc).
  rewrite Ed. cbn [bind]. exact Ea.
Qed.

Lemma runrules_upto_filled (n : nat) :
  forall rule self self',
    Keys.both_filled self -> RuleInfo.runrules_upto n rule self = Ok self' ->
    Keys.both_filled self'.
Proof.
  induction n as [| n IH]; intros rule self self' Hself; cbn [RuleInfo.runrules_upto];
    [discriminate |].
  unfold RuleInfo.runrules_body.
  destruct (Py.getitem rule "behaviors") as [behaviors | e]; cbn [bind];
    [| discriminate].
  destruct (Py.iter behaviors) as [bs | e]; cbn [bind]; [| discriminate].
  destruct (for_each bs RuleInfo.add_behavior self) as [self1 | e] eqn:E1;
    cbn [bind]; [| discriminate].
  assert (H1 : Keys.both_filled self1).
  { exact (for_each_invariant Keys.both_filled RuleInfo.add_behavior bs
             add_behavior_filled self self1 Hself E1). }
  destruct (Py.contains "criteria" rule) as [has | e]; cbn [bind];
    [| discriminate].
  match goal with
  | |- bind ?c _ = _ -> _ => destruct c as [self2 | e] eqn:E2
  end; cbn [bind]; [| discriminate].
  assert (H2 : Keys.both_filled self2).
  { destruct has.
    - destruct (Py.getitem rule "criteria") as [criteria | e]; cbn [bind] in E2;
        [| discriminate].
      destruct (Py.iter criteria) as [cs | e]; cbn [bind] in E2;
        [| discriminate].
      exact (for_each_invariant Keys.both_filled (RuleInfo.add_criterion rule) cs
               (add_criterion_filled rule) self1 self2 H1 E2).
    - injection E2 as <-. exact H1. }
  destruct (Py.getitem rule "children") as [children | e]; cbn [bind];
    [| discriminate].
  destruct (Py.iter children) as [ch | e]; cbn [bind]; [| discriminate].
  apply (for_each_invariant Keys.both_filled (RuleInfo.runrules_upto n) ch).
  - intros c st st'. apply IH.
  - exact H2.
Qed.

(** Whatever the rules value is, well-formed or not, when the constructor
    of [RuleInfo] succeeds no bucket of its two dictionaries is empty: a
    name is a key only with at least one entry under it. *)
Theorem init_buckets_filled (rules : json) (info : RuleInfo.t) :
  RuleInfo.init rules = Ok info ->
  Keys.filled (RuleInfo.behaviors info) /\ Keys.filled (RuleInfo.criteria info).
Proof.
  unfold RuleInfo.init.
  assert (H0 : Keys.both_filled (RuleInfo.mk [] [])).
  { split; constructor. }
  destruct (Py.truthy rules).
  - destruct (Py.getitem rules "rules") as [root | e]; cbn [bind];
      [| discriminate].
    unfold RuleInfo._runrules. intros H.
    exact (runrules_upto_filled _ root _ info H0 H).
  - intros H. injection H as <-. exact H0.
Qed.

Lemma init_buckets_filled_witness :
  Keys.filled
    [(JStr "origin", [Sample.origin_a; Sample.origin_b]);
     (JStr "caching", [Sample.caching])].
Proof.
  exact (proj1 (init_buckets_filled Sample.rules _ eq_refl)).
Defined.

Lemma find_filled (k : json) (d : Py.buckets) (b : list json) :
  Keys.filled d -> Py.find k d = Some b -> b <> [].
Proof.
  unfold Keys.filled. induction d as [| [k' b'] rest IH]; cbn [Py.find];
    [discriminate |].
  intros Hd. inversion Hd as [| ? ? Hb Hrest]; subst.
  destruct (Py.key_eq k k'); [| exact (IH Hrest)].
  intros H. injection H as <-. exact Hb.
Qed.

(** [origins] never returns an empty list, whatever the API answers: it
    raises, returns [None], or returns a list with at least one origin. *)
Theorem origins_never_empty (repr : json -> string)
  (urlencode : list (string * json) -> string)
  (urljoin : string -> string -> string)
  (session_get : string -> result json)
  (session_post : string -> json -> result json)
  (self : AkamaiBase.t) (hostname : string) :
  (exists e,
      AkamaiDiag.origins repr urlencode urljoin session_get session_post self
                         hostname = Raise e)
  \/ AkamaiDiag.origins repr urlencode urljoin session_get session_post self
                        hostname = Ok JNull
  \/ (exists x xs,
         AkamaiDiag.origins repr urlencode urljoin session_get session_post
                            self hostname = Ok (JArr (x :: xs))).
Proof.
  unfold AkamaiDiag.origins.
  destruct (AkamaiDiag.propertyrules _ _ _ _ _ _ _) as [rules | e];
    cbn [bind]; [| left; exists e; reflexivity].
  destruct (Py.truthy rules); [| right; left; reflexivity].
  destruct (RuleInfo.init rules) as [info | e] eqn:Ei; cbn [bind];
    [| left; exists e; reflexivity].
  destruct (init_buckets_filled rules info Ei) as [Hb _].
  unfold Py.dict_getitem. cbn [Py.hashable].
  destruct (Py.find (JStr "origin") (RuleInfo.behaviors info)) as [b |] eqn:Ef;
    cbn [bind]; [| left; eexists; reflexivity].
  pose proof (find_filled _ _ b Hb Ef) as Hne.
  destruct b as [| x xs]; [exfalso; apply Hne; reflexivity |].
  right. right. exists x, xs. reflexivity.
Qed.

(** ** The order of the keys *)

Lemma keys_store (n : string) (b : list json) (d : Py.buckets) :
  map fst (Py.store (JStr n) b d)
  = match Py.find (JStr n) d with
    | Some _ => map fst d
    | None => map fst d ++ [JStr n]
    end.
Proof.
  induction d as [| [k' b'] rest IH]; cbn [Py.store Py.find map fst app];
    [reflexivity |].
  destruct (Py.key_eq (JStr n) k') eqn:E; cbn [map fst]; [reflexivity |].
  rewrite IH. destruct (Py.find (JStr n) rest); reflexivity.
Qed.

Lemma find_keys (n : string) (names : list string) :
  forall d, map fst d = map JStr names ->
    match Py.find (JStr n) d with Some _ => true | None => false end
    = existsb (String.eqb n) names.
Proof.
  induction names as [| m names IH]; intros [| [k b] d] H;
    try discriminate H; [reflexivity |].
  cbn [map fst] in H. injection H as -> H.
  cbn [Py.find Py.key_eq existsb].
  destruct (String.eqb n m); [reflexivity | exact (IH d H)].
Qed.

Lemma keys_push_all (l : list json) :
  forall d names, map fst d = map JStr names ->
    map fst (RuleTree.push_all d l) = map JStr (Keys.first_seen names l).
Proof.
  induction l as [| x l IH]; intros d names H; [exact H |].
  cbn [RuleTree.push_all fold_left Keys.first_seen].
  fold (RuleTree.push_all (RuleTree.push d x) l).
  apply IH. unfold RuleTree.push. rewrite keys_store.
  rewrite <- (find_keys (RuleTree.name_of x) names d H).
  destruct (Py.find (JStr (RuleTree.name_of x)) d); [exact H |].
  rewrite map_app, H. reflexivity.
Qed.

(** On a well-formed rule tree the keys of each dictionary are the names in
    the order in which the traversal meets each name first, every name
    once. *)
Theorem flatten_key_order (rules root : json) :
  Py.getitem rules "rules" = Ok root ->
  RuleTree.wf root = true ->
  exists info,
    RuleInfo.init rules = Ok info
    /\ map fst (RuleInfo.behaviors info)
       = map JStr (Keys.first_seen [] (RuleTree.all_behaviors root))
    /\ map fst (RuleInfo.criteria info)
       = map JStr (Keys.first_seen [] (RuleTree.all_criteria root)).
Proof.
  intros Hget Hwf. rewrite (init_flatten rules root Hget Hwf).
  eexists. split; [reflexivity |].
  unfold RuleInfo.behaviors, RuleInfo.criteria.
  cbn [RuleInfo._behaviors RuleInfo._criteria].
  split; apply keys_push_all; reflexivity.
Qed.

Lemma flatten_key_order_witness :
  exists info,
    RuleInfo.init Sample.rules = Ok info
    /\ map fst (RuleInfo.behaviors info) = [JStr "origin"; JStr "caching"].
Proof.
  destruct (flatten_key_order Sample.rules Sample.root eq_refl eq_refl)
    as [info [Hinit [Hb _]]].
  exists info. split; [exact Hinit | exact Hb].
Defined.

(** A node that has criteria but no [name] of its own makes the flattener
    raise the key lookup failure for [name]. *)
Theorem runrules_criteria_need_rule_name (fields : list (string * json))
  (bs cs : list json) (c : json) (self : RuleInfo.t) :
  Py.assoc "behaviors" fields = Some (JArr bs) ->
  forallb RuleTree.named bs = true ->
  Py.assoc "criteria" fields = Some (JArr (c :: cs)) ->
  RuleTree.named c = true ->
  Py.assoc "name" fields = None ->
  RuleInfo._runrules (JObj fields) self = Raise (KeyError (JStr "name")).
Proof.
  intros Hb Hbs Hc Hn Hname. rewrite runrules_unfold.
  unfold RuleInfo.runrules_body, Py.getitem at 1, Py.contains.
  rewrite Hb. cbn [bind Py.iter].
  rewrite (for_each_add_behavior bs self Hbs). cbn [bind].
  unfold Py.getitem at 1. rewrite Hc. cbn [bind Py.iter for_each].
  unfold RuleInfo.add_criterion.
  rewrite (named_getitem c Hn). cbn [bind].
  pose proof (append_named
                (RuleInfo._criteria
                   (RuleInfo.mk
                      (RuleTree.push_all (RuleInfo._behaviors self) bs)
                      (RuleInfo._criteria self)))
                (RuleTree.name_of c) c) as H.
  destruct (RuleInfo.ensure_bucket _ (JStr (RuleTree.name_of c))) as [d1 | e];
    cbn [bind] in *; [| discriminate H].
  unfold Py.getitem at 1. rewrite Hname. reflexivity.
Qed.

Lemma runrules_criteria_need_rule_name_witness :
  RuleInfo._runrules
    (JObj [("behaviors", JArr [Sample.caching]);
           ("criteria", JArr [Sample.extension]);
           ("children", JArr [])])
    (RuleInfo.mk [] [])
  = Raise (KeyError (JStr "name")).
Proof.
  apply (runrules_criteria_need_rule_name _ [Sample.caching] []
           Sample.extension);
    reflexivity.
Defined.

(** ** The listings of the commands *)


Lemma ljust_length (width : nat) (s : string) :
  String.length (Text.ljust width s) = Nat.max width (String.length s).
Proof.
  unfold Text.ljust.
  assert (Happ : forall a b : string,
             String.length (a ++ b) = (String.length a + String.length b)%nat).
  { induction a as [| c a IHa]; intros b; cbn [String.append String.length];
      [reflexivity | rewrite IHa; reflexivity]. }
  assert (Hsp : forall n, String.length (Text.spaces n) = n).
  { induction n as [| n IHn]; cbn [Text.spaces String.length];
      [reflexivity | rewrite IHn; reflexivity]. }
  rewrite Happ, Hsp. lia.
Qed.

Section Listings.
Variable repr : json -> string.
Variable json_dumps : json -> string.

(** The line of a name and a value, as [urldebug] and [reference] print
  it. *)
Let row (name : string) (value : json) : string :=
(Text.ljust 22 name ++ ": " ++ Fmt.py_str repr value)%string.

Lemma urldebug_lines (xs : list json) (rows : list (string * json)) :
Forall2 (fun x r => Py.getitem x "name" = Ok (JStr (fst r))
                    /\ Py.getitem x "value" = Ok (snd r)) xs rows ->
print_each xs (Main.urldebug_line repr)
= (flat_map (fun r => if Py.truthy (snd r) then [row (fst r) (snd r)] else [])
            rows, None).
Proof.
induction 1 as [| x r xs rows [Hn Hv] _ IH]; [reflexivity |].
cbn [print_each flat_map]. unfold Main.urldebug_line at 1.
rewrite Hv. cbn [bind].
destruct (Py.truthy (snd r)).
- destruct x; try discriminate Hn.
  rewrite Hn. cbn [bind Fmt.format_left].
  rewrite IH. reflexivity.
- rewrite IH. reflexivity.
Qed.

(** When every entry of [urlDebug.httpResponse] has a string [name] and a
  [value], the urldebug command prints one line for each entry whose
  value is truthy, in the order of the list, the name padded to 22
  columns when it is shorter; it prints no raw JSON and raises nothing. *)
Theorem urldebug_listing_well_formed (result dbg : json) (xs : list json)
(rows : list (string * json)) :
Py.getitem result "urlDebug" = Ok dbg ->
Py.getitem dbg "httpResponse" = Ok (JArr xs) ->
Forall2 (fun x r => Py.getitem x "name" = Ok (JStr (fst r))
                    /\ Py.getitem x "value" = Ok (snd r)) xs rows ->
Main.urldebug_command repr json_dumps result
= mk_outcome
    (flat_map (fun r => if Py.truthy (snd r)
                        then [(Text.ljust 22 (fst r) ++ ": "
                                 ++ Fmt.py_str repr (snd r))%string]
                        else [])
              rows)
    [] None
/\ forall r, In r rows ->
     String.length (Text.ljust 22 (fst r))
     = Nat.max 22 (String.length (fst r)).
Proof.
intros Hd Hr Hrows. split.
- unfold Main.urldebug_command, Main.urldebug_listing.
  rewrite Hd. cbn [bind]. rewrite Hr. cbn [bind Py.iter].
  rewrite (urldebug_lines xs rows Hrows). reflexivity.
- intros r _. apply ljust_length.
Qed.


End Listings.

Lemma urldebug_listing_well_formed_witness :
  Main.urldebug_command Sample.repr Sample.json_dumps
    (JObj [("urlDebug",
            JObj [("httpResponse",
                   JArr [JObj [("name", JStr "Status"); ("value", JStr "200")];
                         JObj [("name", JStr "Log"); ("value", JStr "")];
                         JObj [("name", JStr "CP code"); ("value", JInt 7)]])])])
  = mk_outcome ["Status                : 200"; "CP code               : <value>"]
               [] None.
Proof.
  refine (proj1 (urldebug_listing_well_formed Sample.repr Sample.json_dumps
                   _ _ _ [("Status", JStr "200"); ("Log", JStr "");
                          ("CP code", JInt 7)] _ _ _));
    [reflexivity | reflexivity | repeat constructor].
Defined.


(** ** The reference command and the end of the main program *)

Lemma assoc_nodup (fields : list (string * json)) (k : string) (v : json) :
  NoDup (map fst fields) -> In (k, v) fields -> Py.assoc k fields = Some v.
Proof.
  induction fields as [| [k0 v0] rest IH]; intros Hnd Hin; [destruct Hin |].
  cbn [map fst] in Hnd. inversion Hnd as [| ? ? Hnot Hrest]; subst.
  cbn [Py.assoc]. destruct Hin as [Heq | Hin].
  - injection Heq as -> ->. rewrite String.eqb_refl. reflexivity.
  - destruct (String.eqb k k0) eqn:E.
    + apply String.eqb_eq in E. subst k0. exfalso. apply Hnot.
      apply in_map_iff. exists (k, v). split; [reflexivity | exact Hin].
    + exact (IH Hrest Hin).
Qed.

Section ReferenceCommand.
Variable repr : json -> string.

Lemma reference_lines (fields : list (string * json)) :
NoDup (map fst fields) ->
forall part, incl part fields ->
  print_each (map (fun kv => JStr (fst kv)) part)
             (Script.reference_line repr (JObj fields))
  = (flat_map
       (fun kv =>
          if Py.truthy (snd kv) && (Index.is_int (snd kv) || Index.is_str (snd kv))
          then [(Text.ljust 22 (fst kv) ++ ": " ++ Fmt.py_str repr (snd kv))%string]
          else [])
       part, None).
Proof.
intros Hnd. induction part as [| [k v] part IH]; intros Hincl;
  [reflexivity |].
cbn [map print_each flat_map fst snd].
assert (Hk : Index.subscript (JObj fields) (JStr k) = Ok v).
{ cbn [Index.subscript]. unfold Py.getitem.
  rewrite (assoc_nodup fields k v Hnd (Hincl _ (or_introl eq_refl))).
  reflexivity. }
rewrite IH by (intros x Hx; apply Hincl; right; exact Hx).
unfold Script.reference_line, Script.reference_print.
rewrite Hk. cbn [bind Fmt.format_left].
destruct (Py.truthy v); cbn [andb]; [| reflexivity].
destruct (Index.is_int v); cbn [orb bind]; [reflexivity |].
destruct (Index.is_str v); reflexivity.
Qed.

(** When [translatedError] is an object, the reference command never
  raises: it prints one line for each field whose value is a non-empty
  string or a non-zero integer (a true bool is one), in the order of the
  fields, and passes over [None], nested objects, lists and floats. *)
Theorem reference_command_object (result : json)
(fields : list (string * json)) :
Py.getitem result "translatedError" = Ok (JObj fields) ->
NoDup (map fst fields) ->
Script.reference_command repr result
= mk_outcome
    (flat_map
       (fun kv =>
          if Py.truthy (snd kv) && (Index.is_int (snd kv) || Index.is_str (snd kv))
          then [(Text.ljust 22 (fst kv) ++ ": " ++ Fmt.py_str repr (snd kv))%string]
          else [])
       fields)
    [] None.
Proof.
intros Hte Hnd. unfold Script.reference_command.
rewrite Hte. cbn [Py.iter].
rewrite (reference_lines fields Hnd fields (incl_refl fields)).
reflexivity.
Qed.

End ReferenceCommand.

Lemma reference_command_object_witness :
  Script.reference_command Sample.repr
    (JObj [("translatedError",
            JObj [("url", JStr "https://www.example.com/");
                  ("httpResponseCode", JInt 503);
                  ("logs", JArr [JObj []]);
                  ("cacheKeyHostname", JStr "");
                  ("wafDetails", JNull)])])
  = mk_outcome
      ["url                   : https://www.example.com/";
       "httpResponseCode      : <value>"]
      [] None.
Proof.
  refine (reference_command_object Sample.repr _
            [("url", JStr "https://www.example.com/");
             ("httpResponseCode", JInt 503);
             ("logs", JArr [JObj []]);
             ("cacheKeyHostname", JStr "");
             ("wafDetails", JNull)] _ _); [reflexivity |].
  repeat constructor; cbn; intuition discriminate.
Defined.

Section MainProgram.
Variable repr : json -> string.
Variable json_dumps : json -> string.
Variable urlencode : list (string * json) -> string.
Variable urljoin : string -> string -> string.
Variable session_get : string -> result json.
Variable session_post : string -> json -> result json.
Variable charref_sub : string -> string.
Variable akadiag : AkamaiBase.t.
Variable usage : string.
Variable open_write : string -> result unit.

Local Abbreviation main :=
(Script.main repr json_dumps urlencode urljoin session_get session_post
             charref_sub akadiag usage open_write).

(** The dispatch without a command, once [akadiag] is built. *)
Lemma main_without_command (json_path : option string) :
(Script.json_given json_path = None ->
 main Script.NoCommand json_path
 = Script.mk_execution (mk_outcome [usage] [] None) Script.NotOpened)
/\ (forall path,
       Script.json_given json_path = Some path ->
       open_write path = Ok tt ->
       main Script.NoCommand json_path
       = Script.mk_execution
           (mk_outcome [usage] [] (Some (OtherError "NameError")))
           (Script.Truncated path)).
Proof.
unfold Script.main. cbn [Script.branch raised]. split.
- intros H. rewrite H. reflexivity.
- intros path H Hopen. rewrite H, Hopen. reflexivity.
Qed.

(** With [--json], the urldebug command exports the answer of the API
  itself, also when its shape made the listing fall back to the raw
  print; and the program ends without an exception. *)
Theorem main_urldebug_export (URL path : string) (json_path : option string)
(result : json) :
AkamaiDiag.urldebug urlencode urljoin session_get akadiag URL = Ok result ->
Script.json_given json_path = Some path ->
open_write path = Ok tt ->
Script.exported (main (Script.Urldebug URL) json_path) = Script.Dumped path result
/\ raised (Script.printed (main (Script.Urldebug URL) json_path)) = None.
Proof.
intros Hres Hjson Hopen. unfold Script.main. cbn [Script.branch].
rewrite Hres.
pose proof (urldebug_never_raises_aux repr json_dumps result) as Hr.
rewrite Hr, Hjson, Hopen. cbn [Script.exported Script.printed].
split; [reflexivity | exact Hr].
Qed.

(** A file is exported only by a run that ended without an exception, and
  what it holds is the value the command bound to [result]. *)
Theorem main_export_only_on_success (c : Script.command)
(json_path : option string) (path : string) (v : json) :
Script.exported (main c json_path) = Script.Dumped path v ->
raised (Script.printed (main c json_path)) = None
/\ Script.json_given json_path = Some path
/\ snd (Script.branch repr json_dumps urlencode urljoin session_get
          session_post charref_sub akadiag usage c) = Some v.
Proof.
unfold Script.main.
destruct (Script.branch _ _ _ _ _ _ _ _ _ c) as [out result].
destruct (raised out) eqn:Er; cbn [Script.exported]; [discriminate |].
destruct (Script.json_given json_path) as [p |]; cbn [Script.exported];
  [| discriminate].
destruct (open_write p); cbn [Script.exported]; [| discriminate].
destruct result; cbn [Script.exported Script.printed]; [| discriminate].
intros H. injection H as -> ->. repeat split. exact Er.
Qed.

End MainProgram.

Lemma main_urldebug_export_witness :
  Script.exported
    (Script.main Sample.repr Sample.json_dumps Sample.urlencode Sample.urljoin
       (Sample.answer (JObj [("title", JStr "Forbidden")]))
       (Sample.answer_post Sample.found) Sample.no_charref
       Sample.akadiag "usage: akamai-get" Disk.open_write
       (Script.Urldebug "https://www.example.com/") (Some "out.json"%string))
  = Script.Dumped "out.json" (JObj [("title", JStr "Forbidden")]).
Proof.
  apply (main_urldebug_export Sample.repr Sample.json_dumps Sample.urlencode
           Sample.urljoin (Sample.answer (JObj [("title", JStr "Forbidden")]))
           (Sample.answer_post Sample.found) Sample.no_charref Sample.akadiag
           "usage: akamai-get" Disk.open_write "https://www.example.com/"
           "out.json" (Some "out.json"%string));
    reflexivity.
Defined.

Lemma main_export_only_on_success_witness :
  raised
    (Script.printed
       (Script.main Sample.repr Sample.json_dumps Sample.urlencode
          Sample.urljoin (Sample.answer Sample.rules)
          (Sample.answer_post Sample.not_found) Sample.no_charref
          Sample.akadiag "usage: akamai-get" Disk.open_write
          (Script.Origins "www.example.com") (Some "out.json"%string)))
  = None.
Proof.
  apply (main_export_only_on_success Sample.repr Sample.json_dumps
           Sample.urlencode Sample.urljoin (Sample.answer Sample.rules)
           (Sample.answer_post Sample.not_found) Sample.no_charref
           Sample.akadiag "usage: akamai-get" Disk.open_write
           (Script.Origins "www.example.com") (Some "out.json"%string)
           "out.json" JNull).
  reflexivity.
Defined.

(** ** The cache *)

Lemma rstrip_spec (c : ascii) (s : string) :
  exists n,
    s = (Text.rstrip c s ++ Suffix.run c n)%string
    /\ Suffix.ends_with c (Text.rstrip c s) = false.
Proof.
  induction s as [| a rest [n [Hrest Hend]]].
  - exists O. split; reflexivity.
  - cbn [Text.rstrip]. destruct (Text.rstrip c rest) as [| b r] eqn:E;
      cbn [String.append] in Hrest.
    + destruct (Ascii.eqb a c) eqn:Ea.
      * apply Ascii.eqb_eq in Ea. subst a. exists (S n).
        cbn [String.append Suffix.run]. split; [| reflexivity].
        f_equal. exact Hrest.
      * exists n. cbn [String.append]. split; [| exact Ea].
        f_equal. exact Hrest.
    + exists n. cbn [String.append]. split; [| exact Hend].
      f_equal. exact Hrest.
Qed.

(** The cache folder never ends with a slash: the folder given, once
    expanded, is the cache folder followed by slashes and nothing else. *)
Theorem cachefolder_stripped (expanduser expandvars : string -> string)
  (cachefolder : string) :
  exists n,
    expanduser (expandvars cachefolder)
    = (CacheControl._cachefolder
         (CacheControl.init expanduser expandvars cachefolder)
       ++ Suffix.run "/" n)%string
    /\ Suffix.ends_with "/"
         (CacheControl._cachefolder
            (CacheControl.init expanduser expandvars cachefolder)) = false.
Proof.
  unfold CacheControl.init. cbn [CacheControl._cachefolder].
  apply rstrip_spec.
Qed.

Section CacheRoundTrip.
Variable disk : Type.
Variable makedirs : disk -> string -> result disk.
Variable write_file : disk -> string -> string -> result disk.
Variable read_file : disk -> string -> result string.
Variable dirname : string -> string.
Variable json_dump : json -> string.
Variable json_load : string -> result json.

Local Abbreviation dump :=
(CacheStore.dump disk makedirs write_file dirname json_dump).
Local Abbreviation load := (CacheStore.load disk read_file json_load).

(** What [dump] stores under a name, [load] returns under that name with
  the same extension, on a file system that gives back what was written
  and for data that [json.load] reads back from [json.dump]. *)
Theorem dump_then_load (d d' : disk) (self : CacheControl.t)
(name extension : string) (data : json) :
(forall s p text s',
    write_file s p text = Ok s' -> read_file s' p = Ok text) ->
json_load (json_dump data) = Ok data ->
dump d self name data extension = Ok d' ->
load d' self name extension = Ok data.
Proof.
intros Hfs Hjson. unfold CacheStore.dump, CacheStore.cachename.
destruct (makedirs d _) as [d1 | e]; cbn [bind fst snd]; [| discriminate].
intros Hw. unfold CacheStore.load, CacheControl.load, CacheControl.cachename.
rewrite (Hfs _ _ _ _ Hw). cbn [bind]. rewrite Hjson. reflexivity.
Qed.

End CacheRoundTrip.

Lemma disk_read_written (s : Disk.t) (p text : string) (s' : Disk.t) :
  Disk.write_file s p text = Ok s' -> Disk.read_file s' p = Ok text.
Proof.
  unfold Disk.write_file. intros H. injection H as <-.
  cbn [Disk.read_file]. rewrite String.eqb_refl. reflexivity.
Qed.

Lemma dump_then_load_witness :
  CacheStore.load Disk.t Disk.read_file Disk.json_load
    [("/var/cache/akamai/properties/www.json", "<text>")]%string
    (CacheControl.mk "/var/cache/akamai") "properties/www" ".json"
  = Ok Sample.found.
Proof.
  apply (dump_then_load Disk.t Disk.makedirs Disk.write_file Disk.read_file
           Disk.dirname Disk.json_dump Disk.json_load []
           [("/var/cache/akamai/properties/www.json", "<text>")]%string
           (CacheControl.mk "/var/cache/akamai") "properties/www" ".json"
           Sample.found disk_read_written);
    reflexivity.
Defined.

(** ** The program from its start *)

Section ProgramStart.
Variable repr : json -> string.
Variable json_dumps : json -> string.
Variable urlencode : list (string * json) -> string.
Variable urljoin : string -> string -> string.
Variable session_get : string -> result json.
Variable session_post : string -> json -> result json.
Variable charref_sub : string -> string.
Variable usage : string.
Variable open_write : string -> result unit.
Variable open_log : string -> result unit.
Variable read_host : string -> string -> result string.

Local Abbreviation run :=
(Program.run repr json_dumps urlencode urljoin session_get session_post
             charref_sub usage open_write open_log read_host).

(** A run without a command.  When the log file of [--debug] cannot be
  opened or the edgerc gives no host, the program ends with that
  exception and prints nothing, the help included.  Otherwise it prints
  its help and ends normally; and when [--json] names a file as well, the
  file is opened, and so emptied, before the missing [result] ends the
  program with a [NameError]. *)
Theorem program_without_command (a : Program.args) :
Program.command a = Script.NoCommand ->
(forall e,
    Program.logging open_log a = Raise e ->
    run a = Script.mk_execution (mk_outcome [] [] (Some e)) Script.NotOpened)
/\ (forall e,
       Program.logging open_log a = Ok tt ->
       read_host (Program.edgerc a) (Program.section a) = Raise e ->
       run a
       = Script.mk_execution (mk_outcome [] [] (Some e)) Script.NotOpened)
/\ (forall host,
       Program.logging open_log a = Ok tt ->
       read_host (Program.edgerc a) (Program.section a) = Ok host ->
       Script.json_given (Program.json_path a) = None ->
       run a
       = Script.mk_execution (mk_outcome [usage] [] None) Script.NotOpened)
/\ (forall host path,
       Program.logging open_log a = Ok tt ->
       read_host (Program.edgerc a) (Program.section a) = Ok host ->
       Script.json_given (Program.json_path a) = Some path ->
       open_write path = Ok tt ->
       run a
       = Script.mk_execution
           (mk_outcome [usage] [] (Some (OtherError "NameError")))
           (Script.Truncated path)).
Proof.
intros Hc. unfold Program.run, Program.connect. rewrite Hc.
split; [| split; [| split]].
- intros e Hlog. rewrite Hlog. reflexivity.
- intros e Hlog Hhost. rewrite Hlog. cbn [bind]. rewrite Hhost. reflexivity.
- intros host Hlog Hhost Hjson. rewrite Hlog. cbn [bind].
  rewrite Hhost. cbn [bind].
  apply (proj1 (main_without_command repr json_dumps urlencode urljoin
                  session_get session_post charref_sub
                  (AkamaiBase.init host (Program.account a)) usage
                  open_write (Program.json_path a))).
  exact Hjson.
- intros host path Hlog Hhost Hjson Hopen. rewrite Hlog. cbn [bind].
  rewrite Hhost. cbn [bind].
  apply (proj2 (main_without_command repr json_dumps urlencode urljoin
                  session_get session_post charref_sub
                  (AkamaiBase.init host (Program.account a)) usage
                  open_write (Program.json_path a)) path Hjson Hopen).
Qed.

End ProgramStart.

Lemma program_without_command_witness :
  Program.run Sample.repr Sample.json_dumps Sample.urlencode Sample.urljoin
    (Sample.answer JNull) (Sample.answer_post Sample.found) Sample.no_charref
    "usage: akamai-get" Disk.open_write Disk.open_write Disk.read_host
    (Disk.no_command "missing" None)
  = Script.mk_execution
      (mk_outcome [] [] (Some (OtherError "NoSectionError"))) Script.NotOpened
  /\ Program.run Sample.repr Sample.json_dumps Sample.urlencode Sample.urljoin
       (Sample.answer JNull) (Sample.answer_post Sample.found)
       Sample.no_charref "usage: akamai-get" Disk.open_write Disk.open_write
       Disk.read_host (Disk.no_command "default" None)
     = Script.mk_execution (mk_outcome ["usage: akamai-get"%string] [] None)
                           Script.NotOpened
  /\ Program.run Sample.repr Sample.json_dumps Sample.urlencode Sample.urljoin
       (Sample.answer JNull) (Sample.answer_post Sample.found)
       Sample.no_charref "usage: akamai-get" Disk.open_write Disk.open_write
       Disk.read_host (Disk.no_command "default" (Some "out.json"%string))
     = Script.mk_execution
         (mk_outcome ["usage: akamai-get"%string] []
                     (Some (OtherError "NameError")))
         (Script.Truncated "out.json").
Proof.
  split; [| split].
  - apply (proj1 (proj2 (program_without_command Sample.repr Sample.json_dumps
             Sample.urlencode Sample.urljoin (Sample.answer JNull)
             (Sample.answer_post Sample.found) Sample.no_charref
             "usage: akamai-get" Disk.open_write Disk.open_write Disk.read_host
             (Disk.no_command "missing" None) eq_refl)));
      reflexivity.
  - apply (proj1 (proj2 (proj2 (program_without_command Sample.repr
             Sample.json_dumps Sample.urlencode Sample.urljoin
             (Sample.answer JNull) (Sample.answer_post Sample.found)
             Sample.no_charref "usage: akamai-get" Disk.open_write
             Disk.open_write Disk.read_host
             (Disk.no_command "default" None) eq_refl)))
           "akab-host.luna.akamaiapis.net"%string);
      reflexivity.
  - apply (proj2 (proj2 (proj2 (program_without_command Sample.repr
             Sample.json_dumps Sample.urlencode Sample.urljoin
             (Sample.answer JNull) (Sample.answer_post Sample.found)
             Sample.no_charref "usage: akamai-get" Disk.open_write
             Disk.open_write Disk.read_host
             (Disk.no_command "default" (Some "out.json"%string)) eq_refl)))
           "akab-host.luna.akamaiapis.net"%string "out.json"%string);
      reflexivity.
Defined.
